(** * raack-sync-pro: the browser-side workflow controller (static/js/main.js)

    A shallow embedding of the page script: the two session variables, the
    DOM properties the script writes, the promise chains of the three
    network calls and the timers, followed by the properties of the
    upload / process / download workflow. *)

From Stdlib Require Import String Ascii List ZArith Bool Lia DecimalString.
Import ListNotations.
Open Scope string_scope.
Open Scope Z_scope.

Set Warnings "-register-all".

(** ** JavaScript values

    The values the script handles are the results of [response.json()],
    string literals, and the two module-level variables (initially [null]).
    Numbers are restricted to integers: the numbers of the service's
    responses are row and file counts. *)

Inductive value : Type :=
| VUndef
| VNull
| VBool (b : bool)
| VNum (n : Z)
| VStr (s : string)
| VArr (items : list value)
| VObj (fields : list (string * value)).

(** What a failed read or conversion throws. *)
Inductive type_error : Type :=
| ReadOfNullish (v : value) (p : string)   (* [v.p] with [v] null or undefined *)
| NotAFunction (p : string)                (* [v.p()] with [v.p] not callable *)
| NoPrimitiveValue.                        (* an object with no usable toString *)

Inductive js_error : Type :=
| HostError (message : string)   (* rejection of [fetch] or of [response.json()] *)
| TypeError (why : type_error).

Inductive result (A : Type) : Type :=
| Ok (a : A)
| Err (e : js_error).
Arguments Ok {A} a.
Arguments Err {A} e.

(** ToBoolean: the test of [if (x)] and [!x]. *)
Definition truthy (v : value) : bool :=
  match v with
  | VUndef | VNull => false
  | VBool b => b
  | VNum n => negb (n =? 0)
  | VStr s => negb (String.eqb s EmptyString)
  | VArr _ | VObj _ => true
  end.

Definition nullish (v : value) : bool :=
  match v with
  | VUndef | VNull => true
  | _ => false
  end.

Fixpoint lookup_field (fields : list (string * value)) (p : string) : option value :=
  match fields with
  | [] => None
  | (k, v) :: rest => if String.eqb k p then Some v else lookup_field rest p
  end.

Definition has_own (fields : list (string * value)) (p : string) : bool :=
  match lookup_field fields p with
  | Some _ => true
  | None => false
  end.

(** [v.p] for the property names the script reads ([error], [filename],
    [row_count], [columns], [length], [zip_file], [files_created]): own
    fields of an object, [length] of an array or a string, [undefined]
    otherwise; reading a property of [null] or [undefined] throws. *)
Definition get_prop (v : value) (p : string) : result value :=
  match v with
  | VUndef | VNull => Err (TypeError (ReadOfNullish v p))
  | VObj fields =>
      match lookup_field fields p with
      | Some x => Ok x
      | None => Ok VUndef
      end
  | VArr items =>
      if String.eqb p "length" then Ok (VNum (Z.of_nat (List.length items)))
      else Ok VUndef
  | VStr s =>
      if String.eqb p "length" then Ok (VNum (Z.of_nat (String.length s)))
      else Ok VUndef
  | VBool _ | VNum _ => Ok VUndef
  end.

(** Number to decimal text, as [String(n)] for an integer. *)
Definition number_to_string (n : Z) : string :=
  NilZero.string_of_int (Z.to_int n).

(** [Array.prototype.join(",")] over already converted items. *)
Fixpoint join_comma (parts : list string) : string :=
  match parts with
  | [] => EmptyString
  | [s] => s
  | s :: rest => s ++ "," ++ join_comma rest
  end.

Fixpoint sequence {A : Type} (rs : list (result A)) : result (list A) :=
  match rs with
  | [] => Ok []
  | Ok a :: rest =>
      match sequence rest with
      | Ok l => Ok (a :: l)
      | Err e => Err e
      end
  | Err e :: _ => Err e
  end.

(** ToString: template literals, string concatenation and DOM string
    properties.  An object parsed from JSON has no callable own property, so
    one with an own [toString] field has no primitive value. *)
Fixpoint ToString (v : value) : result string :=
  match v with
  | VUndef => Ok "undefined"
  | VNull => Ok "null"
  | VBool true => Ok "true"
  | VBool false => Ok "false"
  | VNum n => Ok (number_to_string n)
  | VStr s => Ok s
  | VArr items =>
      match sequence (map (fun x => if nullish x then Ok EmptyString else ToString x) items) with
      | Ok parts => Ok (join_comma parts)
      | Err e => Err e
      end
  | VObj fields =>
      if has_own fields "toString" then Err (TypeError NoPrimitiveValue)
      else Ok "[object Object]"
  end.

(** Assignment to a nullable DOM string property ([textContent]): [null]
    and [undefined] give the empty text. *)
Definition to_text (v : value) : result string :=
  if nullish v then Ok EmptyString else ToString v.

(** ** The file-name pattern [/\.(xlsx|xls|csv)$/i]

    A backtracking matcher for the fragment of regular expressions the
    pattern uses.  Under the [i] flag two code units match when their
    canonical (upper-case) forms agree; a code unit outside ASCII is never
    canonicalised to an ASCII one, so it is left as it is.  Strings are
    sequences of 8-bit characters. *)

Inductive regex : Type :=
| Eps
| Chr (c : ascii)
| Seq (r1 r2 : regex)
| Alt (r1 r2 : regex)
| EndOfInput.

Definition canonicalize (c : ascii) : ascii :=
  let n := nat_of_ascii c in
  if ((97 <=? n) && (n <=? 122))%nat then ascii_of_nat (n - 32) else c.

Fixpoint matchK (r : regex) (s : string) (k : string -> bool) : bool :=
  match r with
  | Eps => k s
  | Chr c =>
      match s with
      | String a rest =>
          if Ascii.eqb (canonicalize a) (canonicalize c) then k rest else false
      | EmptyString => false
      end
  | Seq r1 r2 => matchK r1 s (fun rest => matchK r2 rest k)
  | Alt r1 r2 => matchK r1 s k || matchK r2 s k
  | EndOfInput =>
      match s with
      | EmptyString => k s
      | String _ _ => false
      end
  end.

(** [s.match(re)] is not [null]: the pattern matches at some start index. *)
Fixpoint regex_match (r : regex) (s : string) : bool :=
  matchK r s (fun _ => true)
  || match s with
     | EmptyString => false
     | String _ rest => regex_match r rest
     end.

Fixpoint lit (w : string) : regex :=
  match w with
  | EmptyString => Eps
  | String c rest => Seq (Chr c) (lit rest)
  end.

Definition extension_pattern : regex :=
  Seq (Chr ".") (Seq (Alt (lit "xlsx") (Alt (lit "xls") (lit "csv"))) EndOfInput).

(** [matches r s rest]: [r] consumes a prefix of [s] and leaves [rest]. *)
Inductive matches : regex -> string -> string -> Prop :=
| matches_eps s : matches Eps s s
| matches_chr c a s :
    canonicalize a = canonicalize c -> matches (Chr c) (String a s) s
| matches_seq r1 r2 s s' s'' :
    matches r1 s s' -> matches r2 s' s'' -> matches (Seq r1 r2) s s''
| matches_alt_l r1 r2 s s' : matches r1 s s' -> matches (Alt r1 r2) s s'
| matches_alt_r r1 r2 s s' : matches r2 s s' -> matches (Alt r1 r2) s s'
| matches_end : matches EndOfInput EmptyString EmptyString.

Fixpoint to_upper (s : string) : string :=
  match s with
  | EmptyString => EmptyString
  | String c rest => String (canonicalize c) (to_upper rest)
  end.

(** The spec's acceptance condition: the name ends, ignoring case, with
    the suffix. *)
Definition ends_with_ignoring_case (s suffix : string) : Prop :=
  exists front back, s = front ++ back /\ to_upper back = to_upper suffix.

Definition recognized_extension (s : string) : Prop :=
  ends_with_ignoring_case s ".xlsx"
  \/ ends_with_ignoring_case s ".xls"
  \/ ends_with_ignoring_case s ".csv".

(** ** Requests, timers and observable effects *)

Record file : Type := { name : string; content : string }.

(** The three [fetch] calls.  [ProcessReq] carries the object handed to
    [JSON.stringify]. *)
Inductive request : Type :=
| UploadReq (f : file)          (* POST /upload, form field "file" *)
| ProcessReq (body : value)     (* POST /process, JSON body *)
| CleanupReq.                   (* POST /cleanup *)

(** How a promise chain [fetch(..).then(r => r.json())] settles. *)
Inductive outcome : Type :=
| Resolved (data : value)
| Rejected (error : js_error).

(** The callbacks handed to [setTimeout], one constructor per closure. *)
Inductive task : Type :=
| HideProgressNow               (* hideProgress: container.style.display = 'none' *)
| ProcessStage80 (data : value) (* outer callback of the process handler *)
| ProcessStage100 (data : value)(* inner callback of the process handler *)
| RemovePulse.                  (* btn.classList.remove('pulse') *)

Inductive effect : Type :=
| PreventDefault
| Fetch (r : request)
| ScrollIntoView (element : string)
| AnchorClick (href download : string)   (* click on the temporary anchor *)
| ConsoleError (label : string) (error : js_error)
| Uncaught (error : js_error).           (* exception leaving a callback *)

(** ** Page state: the two session variables and the DOM properties the
    script writes *)

Record upload_area_view : Type := {
  uploadArea_borderColor : string;
  uploadArea_background : string;
  uploadArea_innerHTML : string
}.

Record file_info_view : Type := {
  fileInfo_display : string;
  fileName_textContent : string;
  fileRows_textContent : string;
  fileColumns_textContent : string
}.

Record progress_view : Type := {
  progressContainer_display : string;
  progressBar_width : string;
  progressText_textContent : string
}.

Record error_view : Type := {
  errorSection_display : string;
  errorMessage_textContent : string
}.

Record download_view : Type := {
  outputCount_textContent : string;
  downloadSection_display : string;
  downloadInfo_textContent : string;
  downloadBtn_pulse : bool
}.

Record state : Type := {
  currentFilename : value;
  currentZipFile : value;
  uploadArea : upload_area_view;
  fileInfo : file_info_view;
  processBtn_disabled : bool;
  progress : progress_view;
  errors : error_view;
  download : download_view;
  inflight : list request;
  timers : list (Z * task);
  unloadListeners : nat;
  trace : list effect
}.

(** Field updates. *)

Definition set_uploadArea_borderColor (x : string) (v : upload_area_view) : upload_area_view :=
  {| uploadArea_borderColor := x;
     uploadArea_background := uploadArea_background v;
     uploadArea_innerHTML := uploadArea_innerHTML v |}.

Definition set_uploadArea_background (x : string) (v : upload_area_view) : upload_area_view :=
  {| uploadArea_borderColor := uploadArea_borderColor v;
     uploadArea_background := x;
     uploadArea_innerHTML := uploadArea_innerHTML v |}.

Definition set_uploadArea_innerHTML (x : string) (v : upload_area_view) : upload_area_view :=
  {| uploadArea_borderColor := uploadArea_borderColor v;
     uploadArea_background := uploadArea_background v;
     uploadArea_innerHTML := x |}.

Definition set_fileInfo_display (x : string) (v : file_info_view) : file_info_view :=
  {| fileInfo_display := x;
     fileName_textContent := fileName_textContent v;
     fileRows_textContent := fileRows_textContent v;
     fileColumns_textContent := fileColumns_textContent v |}.

Definition set_fileName_textContent (x : string) (v : file_info_view) : file_info_view :=
  {| fileInfo_display := fileInfo_display v;
     fileName_textContent := x;
     fileRows_textContent := fileRows_textContent v;
     fileColumns_textContent := fileColumns_textContent v |}.

Definition set_fileRows_textContent (x : string) (v : file_info_view) : file_info_view :=
  {| fileInfo_display := fileInfo_display v;
     fileName_textContent := fileName_textContent v;
     fileRows_textContent := x;
     fileColumns_textContent := fileColumns_textContent v |}.

Definition set_fileColumns_textContent (x : string) (v : file_info_view) : file_info_view :=
  {| fileInfo_display := fileInfo_display v;
     fileName_textContent := fileName_textContent v;
     fileRows_textContent := fileRows_textContent v;
     fileColumns_textContent := x |}.

Definition set_progressContainer_display (x : string) (v : progress_view) : progress_view :=
  {| progressContainer_display := x;
     progressBar_width := progressBar_width v;
     progressText_textContent := progressText_textContent v |}.

Definition set_progressBar_width (x : string) (v : progress_view) : progress_view :=
  {| progressContainer_display := progressContainer_display v;
     progressBar_width := x;
     progressText_textContent := progressText_textContent v |}.

Definition set_progressText_textContent (x : string) (v : progress_view) : progress_view :=
  {| progressContainer_display := progressContainer_display v;
     progressBar_width := progressBar_width v;
     progressText_textContent := x |}.

Definition set_errorSection_display (x : string) (v : error_view) : error_view :=
  {| errorSection_display := x;
     errorMessage_textContent := errorMessage_textContent v |}.

Definition set_errorMessage_textContent (x : string) (v : error_view) : error_view :=
  {| errorSection_display := errorSection_display v;
     errorMessage_textContent := x |}.

Definition set_outputCount_textContent (x : string) (v : download_view) : download_view :=
  {| outputCount_textContent := x;
     downloadSection_display := downloadSection_display v;
     downloadInfo_textContent := downloadInfo_textContent v;
     downloadBtn_pulse := downloadBtn_pulse v |}.

Definition set_downloadSection_display (x : string) (v : download_view) : download_view :=
  {| outputCount_textContent := outputCount_textContent v;
     downloadSection_display := x;
     downloadInfo_textContent := downloadInfo_textContent v;
     downloadBtn_pulse := downloadBtn_pulse v |}.

Definition set_downloadInfo_textContent (x : string) (v : download_view) : download_view :=
  {| outputCount_textContent := outputCount_textContent v;
     downloadSection_display := downloadSection_display v;
     downloadInfo_textContent := x;
     downloadBtn_pulse := downloadBtn_pulse v |}.

Definition set_downloadBtn_pulse (x : bool) (v : download_view) : download_view :=
  {| outputCount_textContent := outputCount_textContent v;
     downloadSection_display := downloadSection_display v;
     downloadInfo_textContent := downloadInfo_textContent v;
     downloadBtn_pulse := x |}.

Definition set_currentFilename (x : value) (st : state) : state :=
  {| currentFilename := x;
     currentZipFile := currentZipFile st;
     uploadArea := uploadArea st;
     fileInfo := fileInfo st;
     processBtn_disabled := processBtn_disabled st;
     progress := progress st;
     errors := errors st;
     download := download st;
     inflight := inflight st;
     timers := timers st;
     unloadListeners := unloadListeners st;
     trace := trace st |}.

Definition set_currentZipFile (x : value) (st : state) : state :=
  {| currentFilename := currentFilename st;
     currentZipFile := x;
     uploadArea := uploadArea st;
     fileInfo := fileInfo st;
     processBtn_disabled := processBtn_disabled st;
     progress := progress st;
     errors := errors st;
     download := download st;
     inflight := inflight st;
     timers := timers st;
     unloadListeners := unloadListeners st;
     trace := trace st |}.

Definition set_uploadArea (x : upload_area_view) (st : state) : state :=
  {| currentFilename := currentFilename st;
     currentZipFile := currentZipFile st;
     uploadArea := x;
     fileInfo := fileInfo st;
     processBtn_disabled := processBtn_disabled st;
     progress := progress st;
     errors := errors st;
     download := download st;
     inflight := inflight st;
     timers := timers st;
     unloadListeners := unloadListeners st;
     trace := trace st |}.

Definition set_fileInfo (x : file_info_view) (st : state) : state :=
  {| currentFilename := currentFilename st;
     currentZipFile := currentZipFile st;
     uploadArea := uploadArea st;
     fileInfo := x;
     processBtn_disabled := processBtn_disabled st;
     progress := progress st;
     errors := errors st;
     download := download st;
     inflight := inflight st;
     timers := timers st;
     unloadListeners := unloadListeners st;
     trace := trace st |}.

Definition set_processBtn_disabled (x : bool) (st : state) : state :=
  {| currentFilename := currentFilename st;
     currentZipFile := currentZipFile st;
     uploadArea := uploadArea st;
     fileInfo := fileInfo st;
     processBtn_disabled := x;
     progress := progress st;
     errors := errors st;
     download := download st;
     inflight := inflight st;
     timers := timers st;
     unloadListeners := unloadListeners st;
     trace := trace st |}.

Definition set_progress (x : progress_view) (st : state) : state :=
  {| currentFilename := currentFilename st;
     currentZipFile := currentZipFile st;
     uploadArea := uploadArea st;
     fileInfo := fileInfo st;
     processBtn_disabled := processBtn_disabled st;
     progress := x;
     errors := errors st;
     download := download st;
     inflight := inflight st;
     timers := timers st;
     unloadListeners := unloadListeners st;
     trace := trace st |}.

Definition set_errors (x : error_view) (st : state) : state :=
  {| currentFilename := currentFilename st;
     currentZipFile := currentZipFile st;
     uploadArea := uploadArea st;
     fileInfo := fileInfo st;
     processBtn_disabled := processBtn_disabled st;
     progress := progress st;
     errors := x;
     download := download st;
     inflight := inflight st;
     timers := timers st;
     unloadListeners := unloadListeners st;
     trace := trace st |}.

Definition set_download (x : download_view) (st : state) : state :=
  {| currentFilename := currentFilename st;
     currentZipFile := currentZipFile st;
     uploadArea := uploadArea st;
     fileInfo := fileInfo st;
     processBtn_disabled := processBtn_disabled st;
     progress := progress st;
     errors := errors st;
     download := x;
     inflight := inflight st;
     timers := timers st;
     unloadListeners := unloadListeners st;
     trace := trace st |}.

Definition set_inflight (x : list request) (st : state) : state :=
  {| currentFilename := currentFilename st;
     currentZipFile := currentZipFile st;
     uploadArea := uploadArea st;
     fileInfo := fileInfo st;
     processBtn_disabled := processBtn_disabled st;
     progress := progress st;
     errors := errors st;
     download := download st;
     inflight := x;
     timers := timers st;
     unloadListeners := unloadListeners st;
     trace := trace st |}.

Definition set_timers (x : list (Z * task)) (st : state) : state :=
  {| currentFilename := currentFilename st;
     currentZipFile := currentZipFile st;
     uploadArea := uploadArea st;
     fileInfo := fileInfo st;
     processBtn_disabled := processBtn_disabled st;
     progress := progress st;
     errors := errors st;
     download := download st;
     inflight := inflight st;
     timers := x;
     unloadListeners := unloadListeners st;
     trace := trace st |}.

Definition set_unloadListeners (x : nat) (st : state) : state :=
  {| currentFilename := currentFilename st;
     currentZipFile := currentZipFile st;
     uploadArea := uploadArea st;
     fileInfo := fileInfo st;
     processBtn_disabled := processBtn_disabled st;
     progress := progress st;
     errors := errors st;
     download := download st;
     inflight := inflight st;
     timers := timers st;
     unloadListeners := x;
     trace := trace st |}.

Definition set_trace (x : list effect) (st : state) : state :=
  {| currentFilename := currentFilename st;
     currentZipFile := currentZipFile st;
     uploadArea := uploadArea st;
     fileInfo := fileInfo st;
     processBtn_disabled := processBtn_disabled st;
     progress := progress st;
     errors := errors st;
     download := download st;
     inflight := inflight st;
     timers := timers st;
     unloadListeners := unloadListeners st;
     trace := x |}.

(** ** The callback monad

    A callback runs on the page state and either returns or throws; what
    it wrote before throwing stays written. *)

Definition M (A : Type) : Type := state -> result A * state.

Definition ret {A : Type} (a : A) : M A := fun st => (Ok a, st).

Definition bind {A B : Type} (m : M A) (k : A -> M B) : M B :=
  fun st =>
    match m st with
    | (Ok a, st') => k a st'
    | (Err e, st') => (Err e, st')
    end.

Definition throw {A : Type} (e : js_error) : M A := fun st => (Err e, st).

(** [try { m } catch (e) { h e }], and the [.catch(h)] of a promise chain. *)
Definition try_catch {A : Type} (m : M A) (h : js_error -> M A) : M A :=
  fun st =>
    match m st with
    | (Ok a, st') => (Ok a, st')
    | (Err e, st') => h e st'
    end.

Definition lift {A : Type} (r : result A) : M A := fun st => (r, st).

Definition modify (f : state -> state) : M unit := fun st => (Ok tt, f st).

Definition gets {A : Type} (f : state -> A) : M A := fun st => (Ok (f st), st).

Declare Scope js_scope.
Delimit Scope js_scope with js.
Notation "x <- m ;; k" := (bind m (fun x => k))
  (at level 61, m at next level, right associativity) : js_scope.
Notation "m ;; k" := (bind m (fun _ => k))
  (at level 61, right associativity) : js_scope.
Open Scope js_scope.

Definition emit (e : effect) : M unit :=
  modify (fun st => set_trace (trace st ++ [e]) st).

(** [fetch(..)]: the request goes out and its promise chain is pending. *)
Definition fetch (r : request) : M unit :=
  emit (Fetch r) ;;
  modify (fun st => set_inflight (inflight st ++ [r]) st).

Definition setTimeout (t : task) (delay : Z) : M unit :=
  modify (fun st => set_timers (timers st ++ [(delay, t)]) st).

Definition on_uploadArea (f : upload_area_view -> upload_area_view) : M unit :=
  modify (fun st => set_uploadArea (f (uploadArea st)) st).

Definition on_fileInfo (f : file_info_view -> file_info_view) : M unit :=
  modify (fun st => set_fileInfo (f (fileInfo st)) st).

Definition on_progress (f : progress_view -> progress_view) : M unit :=
  modify (fun st => set_progress (f (progress st)) st).

Definition on_errors (f : error_view -> error_view) : M unit :=
  modify (fun st => set_errors (f (errors st)) st).

Definition on_download (f : download_view -> download_view) : M unit :=
  modify (fun st => set_download (f (download st)) st).

(** The state a callback leaves; an exception that leaves it is reported
    and the page goes on. *)
Definition run_callback (m : M unit) (st : state) : state :=
  match m st with
  | (Ok _, st') => st'
  | (Err e, st') => set_trace (trace st' ++ [Uncaught e]) st'
  end.

(** ** The page when the script has run *)

(** Modelled from the spec: the page markup is not among the sources.  The
    process button starts disabled (spec, section 8: "its entry point is
    disabled beforehand"); the progress, error, file-information and
    download regions start hidden and the texts the script later fills start
    empty.  The colours of the upload area are the ones [dragleave]
    restores.  The two session variables start as [null] (lines 1-2), no
    request or timer is pending and no listener for [beforeunload] is
    registered yet. *)
Definition initial_state : state :=
  {| currentFilename := VNull;
     currentZipFile := VNull;
     uploadArea := {| uploadArea_borderColor := "#667eea";
                      uploadArea_background := "white";
                      uploadArea_innerHTML := EmptyString |};
     fileInfo := {| fileInfo_display := "none";
                    fileName_textContent := EmptyString;
                    fileRows_textContent := EmptyString;
                    fileColumns_textContent := EmptyString |};
     processBtn_disabled := true;
     progress := {| progressContainer_display := "none";
                    progressBar_width := "0%";
                    progressText_textContent := EmptyString |};
     errors := {| errorSection_display := "none";
                  errorMessage_textContent := EmptyString |};
     download := {| outputCount_textContent := EmptyString;
                    downloadSection_display := "none";
                    downloadInfo_textContent := EmptyString;
                    downloadBtn_pulse := false |};
     inflight := [];
     timers := [];
     unloadListeners := 0%nat;
     trace := [] |}.

(** A browser to run examples on: numbers are grouped by no separator and
    the engine's messages are V8's. *)
Definition plain_toLocaleString (v : value) : result string := ToString v.

Definition v8_message (t : type_error) : string :=
  match t with
  | ReadOfNullish v p =>
      "Cannot read properties of "
        ++ (if match v with VNull => true | _ => false end then "null" else "undefined")
        ++ " (reading '" ++ p ++ "')"
  | NotAFunction p => p ++ " is not a function"
  | NoPrimitiveValue => "Cannot convert object to primitive value"
  end.

(** The responses and the file of the spec's examples (section 8). *)
Definition sample_file : file := {| name := "data.csv"; content := "a,b,c,d,e" |}.

Definition sample_upload_result : value :=
  VObj [("filename", VStr "data.csv"); ("row_count", VNum 120);
        ("columns", VArr [VStr "a"; VStr "b"; VStr "c"; VStr "d"; VStr "e"])].

Definition sample_process_result : value :=
  VObj [("zip_file", VStr "out_123.zip"); ("files_created", VNum 4)].

Definition sample_error_payload : value :=
  VObj [("error", VStr "Unsupported encoding")].

(** ** The browser

    What the browser supplies and the script does not fix: the text of
    [v.toLocaleString()] for a value that is neither [null] nor [undefined]
    (it depends on the locale), and the [message] of a [TypeError] raised by
    the engine. *)
Class browser : Type := {
  toLocaleString : value -> result string;
  typeErrorMessage : type_error -> string
}.

Definition reference_browser : browser :=
  {| toLocaleString := plain_toLocaleString; typeErrorMessage := v8_message |}.

(** ** The script *)

Section Controller.

Context {env : browser}.

Definition error_message (e : js_error) : string :=
  match e with
  | HostError m => m
  | TypeError t => typeErrorMessage t
  end.

(** [v.toLocaleString()] *)
Definition call_toLocaleString (v : value) : M string :=
  if nullish v then throw (TypeError (ReadOfNullish v "toLocaleString"))
  else lift (toLocaleString v).

(** *** Progress functions (lines 176-202) *)

Definition showProgress (text : string) (width : Z) : M unit :=
  on_progress (set_progressContainer_display "block") ;;
  on_progress (set_progressBar_width (number_to_string width ++ "%")) ;;
  on_progress (set_progressText_textContent text).

Definition updateProgress (width : Z) (text : string) : M unit :=
  on_progress (set_progressBar_width (number_to_string width ++ "%")) ;;
  if truthy (VStr text) then on_progress (set_progressText_textContent text)
  else ret tt.

Definition hideProgress : M unit := setTimeout HideProgressNow 1000.

(** *** Error handling (lines 204-219) *)

Definition showError (message : value) : M unit :=
  text <- lift (to_text message) ;;
  on_errors (set_errorMessage_textContent text) ;;
  on_errors (set_errorSection_display "block") ;;
  emit (ScrollIntoView "errorSection").

Definition hideError : M unit :=
  on_errors (set_errorSection_display "none").

(** *** Upload (lines 37-91) *)

Definition dquote : string := String "034"%char EmptyString.
Definition newline : string := String "010"%char EmptyString.

(** The template literal of lines 77-82, after its three substitutions. *)
Definition success_markup (filename rows columns : string) : string :=
  newline ++ "            <i class=" ++ dquote ++ "fas fa-check-circle upload-icon"
    ++ dquote ++ " style=" ++ dquote ++ "color: #28a745;" ++ dquote ++ "></i>"
  ++ newline ++ "            <p>File uploaded successfully!</p>"
  ++ newline ++ "            <p><strong>" ++ filename ++ "</strong></p>"
  ++ newline ++ "            <p>" ++ rows ++ " rows, " ++ columns ++ " columns</p>"
  ++ newline ++ "        ".

Definition uploadFile (f : file) : M unit :=
  showProgress "Uploading file..." 0 ;;
  fetch (UploadReq f).

Definition handleFile (f : file) : M unit :=
  if negb (regex_match extension_pattern (name f)) then
    showError (VStr "Please upload an Excel (.xlsx, .xls) or CSV (.csv) file.")
  else
    uploadFile f.

(** The [.then(data => ..)] callback of lines 57-86. *)
Definition upload_then (data : value) : M unit :=
  err <- lift (get_prop data "error") ;;
  if truthy err then
    showError err
  else
    filename <- lift (get_prop data "filename") ;;
    modify (set_currentFilename filename) ;;
    on_fileInfo (set_fileInfo_display "block") ;;
    filename <- lift (get_prop data "filename") ;;
    text <- lift (to_text filename) ;;
    on_fileInfo (set_fileName_textContent text) ;;
    row_count <- lift (get_prop data "row_count") ;;
    rows <- call_toLocaleString row_count ;;
    on_fileInfo (set_fileRows_textContent rows) ;;
    columns <- lift (get_prop data "columns") ;;
    len <- lift (get_prop columns "length") ;;
    text <- lift (to_text len) ;;
    on_fileInfo (set_fileColumns_textContent text) ;;
    modify (set_processBtn_disabled false) ;;
    hideProgress ;;
    filename <- lift (get_prop data "filename") ;;
    s1 <- lift (ToString filename) ;;
    row_count <- lift (get_prop data "row_count") ;;
    s2 <- call_toLocaleString row_count ;;
    columns <- lift (get_prop data "columns") ;;
    len <- lift (get_prop columns "length") ;;
    s3 <- lift (ToString len) ;;
    on_uploadArea (set_uploadArea_innerHTML (success_markup s1 s2 s3)) ;;
    on_uploadArea (set_uploadArea_borderColor "#28a745") ;;
    on_uploadArea (set_uploadArea_background "#f0f4ff").

(** The [.catch(error => ..)] callback of lines 87-90. *)
Definition upload_catch (error : js_error) : M unit :=
  showError (VStr ("Error uploading file: " ++ error_message error)) ;;
  hideProgress.

(** The promise chain of [uploadFile] once the request has settled. *)
Definition upload_settled (o : outcome) : M unit :=
  try_catch
    match o with
    | Resolved data => upload_then data
    | Rejected error => throw error
    end
    upload_catch.

(** *** Process (lines 93-147) *)

Definition processBtn_click : M unit :=
  filename <- gets currentFilename ;;
  if negb (truthy filename) then
    showError (VStr "Please upload a file first.")
  else
    showProgress "Processing file... This may take a moment..." 10 ;;
    filename <- gets currentFilename ;;
    fetch (ProcessReq (VObj [("filename", filename)])).

(** The inner [setTimeout] callback, lines 123-140. *)
Definition process_stage100 (data : value) : M unit :=
  updateProgress 100 "Processing complete!" ;;
  zip_file <- lift (get_prop data "zip_file") ;;
  modify (set_currentZipFile zip_file) ;;
  files_created <- lift (get_prop data "files_created") ;;
  text <- lift (to_text files_created) ;;
  on_download (set_outputCount_textContent text) ;;
  on_download (set_downloadSection_display "block") ;;
  files_created <- lift (get_prop data "files_created") ;;
  s <- lift (ToString files_created) ;;
  on_download (set_downloadInfo_textContent
                 ("Created " ++ s ++ " Excel files in the ZIP archive.")) ;;
  emit (ScrollIntoView "downloadSection") ;;
  hideProgress.

(** The outer [setTimeout] callback, lines 120-141. *)
Definition process_stage80 (data : value) : M unit :=
  updateProgress 80 "Creating ZIP archive..." ;;
  setTimeout (ProcessStage100 data) 1000.

(** The [.then(data => ..)] callback of lines 110-142. *)
Definition process_then (data : value) : M unit :=
  err <- lift (get_prop data "error") ;;
  if truthy err then
    showError err ;;
    hideProgress
  else
    updateProgress 50 "Creating Excel files..." ;;
    setTimeout (ProcessStage80 data) 1000.

Definition process_catch (error : js_error) : M unit :=
  showError (VStr ("Error processing file: " ++ error_message error)) ;;
  hideProgress.

Definition process_settled (o : outcome) : M unit :=
  try_catch
    match o with
    | Resolved data => process_then data
    | Rejected error => throw error
    end
    process_catch.

(** *** Download (lines 149-174) *)

Definition downloadBtn_click : M unit :=
  zip <- gets currentZipFile ;;
  if negb (truthy zip) then
    showError (VStr "No file available for download.")
  else
    zip <- gets currentZipFile ;;
    s <- lift (ToString zip) ;;
    let downloadUrl := "/download/" ++ s in
    zip <- gets currentZipFile ;;
    download_name <- lift (ToString zip) ;;
    emit (AnchorClick downloadUrl download_name) ;;
    on_download (set_downloadBtn_pulse true) ;;
    setTimeout RemovePulse 2000.

(** *** Cleanup (lines 221-228) *)

Definition beforeunload_listener : M unit := fetch CleanupReq.

Definition cleanup_settled (o : outcome) : M unit :=
  match o with
  | Resolved _ => ret tt
  | Rejected error => emit (ConsoleError "Cleanup error:" error)
  end.

Definition DOMContentLoaded_listener : M unit :=
  modify (fun st => set_unloadListeners (S (unloadListeners st)) st).

(** *** Drag and drop (lines 4-35) *)

Definition dragover_listener : M unit :=
  emit PreventDefault ;;
  on_uploadArea (set_uploadArea_borderColor "#764ba2") ;;
  on_uploadArea (set_uploadArea_background "#f0f4ff").

Definition dragleave_listener : M unit :=
  emit PreventDefault ;;
  on_uploadArea (set_uploadArea_borderColor "#667eea") ;;
  on_uploadArea (set_uploadArea_background "white").

Definition drop_listener (files : list file) : M unit :=
  emit PreventDefault ;;
  on_uploadArea (set_uploadArea_borderColor "#667eea") ;;
  on_uploadArea (set_uploadArea_background "white") ;;
  match files with
  | f :: _ => handleFile f
  | [] => ret tt
  end.

Definition change_listener (files : list file) : M unit :=
  match files with
  | f :: _ => handleFile f
  | [] => ret tt
  end.

(** *** The event loop

    The script is driven by the browser: user events, the settling of a
    pending [fetch], a timer that fires, and the two page life-cycle events.
    [Settle i o] settles the [i]-th pending request, [Fire i] fires the
    [i]-th pending timer; any pending timer may be taken, which includes the
    order the browser follows. *)

Inductive event : Type :=
| DragOver
| DragLeave
| Drop (files : list file)
| Change (files : list file)
| ClickProcess
| ClickDownload
| DOMContentLoaded
| BeforeUnload
| Settle (i : nat) (o : outcome)
| Fire (i : nat).

Definition remove_at {A : Type} (i : nat) (l : list A) : list A :=
  firstn i l ++ skipn (S i) l.

Definition run_task (t : task) : M unit :=
  match t with
  | HideProgressNow => on_progress (set_progressContainer_display "none")
  | ProcessStage80 data => process_stage80 data
  | ProcessStage100 data => process_stage100 data
  | RemovePulse => on_download (set_downloadBtn_pulse false)
  end.

Definition settled (r : request) (o : outcome) : M unit :=
  match r with
  | UploadReq _ => upload_settled o
  | ProcessReq _ => process_settled o
  | CleanupReq => cleanup_settled o
  end.

Definition dispatch (e : event) (st : state) : option state :=
  match e with
  | DragOver => Some (run_callback dragover_listener st)
  | DragLeave => Some (run_callback dragleave_listener st)
  | Drop files => Some (run_callback (drop_listener files) st)
  | Change files => Some (run_callback (change_listener files) st)
  | ClickProcess => Some (run_callback processBtn_click st)
  | ClickDownload => Some (run_callback downloadBtn_click st)
  | DOMContentLoaded => Some (run_callback DOMContentLoaded_listener st)
  | BeforeUnload =>
      Some (Nat.iter (unloadListeners st) (run_callback beforeunload_listener) st)
  | Settle i o =>
      match nth_error (inflight st) i with
      | Some r =>
          Some (run_callback (settled r o)
                  (set_inflight (remove_at i (inflight st)) st))
      | None => None
      end
  | Fire i =>
      match nth_error (timers st) i with
      | Some (_, t) =>
          Some (run_callback (run_task t)
                  (set_timers (remove_at i (timers st)) st))
      | None => None
      end
  end.

Fixpoint run (events : list event) (st : state) : option state :=
  match events with
  | [] => Some st
  | e :: rest =>
      match dispatch e st with
      | Some st' => run rest st'
      | None => None
      end
  end.

(** Events of the session proper, as opposed to the page life cycle. *)
Definition is_lifecycle (e : event) : bool :=
  match e with
  | DOMContentLoaded | BeforeUnload => true
  | _ => false
  end.

(** The cleanup requests sent so far. *)
Definition is_cleanup_fetch (e : effect) : bool :=
  match e with
  | Fetch CleanupReq => true
  | _ => false
  end.

Definition cleanup_requests (st : state) : nat :=
  List.length (filter is_cleanup_fetch (trace st)).

Definition is_fetch (e : effect) : bool :=
  match e with
  | Fetch _ => true
  | _ => false
  end.

Definition is_retrieval (e : effect) : bool :=
  match e with
  | AnchorClick _ _ => true
  | _ => false
  end.

(** *** Pages the callbacks lead to

    Named results, used to state what a callback does to the page. *)

(** The page after [showError(message)] for a string [message]. *)
Definition error_shown (message : string) (st : state) : state :=
  set_trace (trace st ++ [ScrollIntoView "errorSection"])
    (set_errors {| errorSection_display := "block";
                   errorMessage_textContent := message |} st).

(** The page after [updateProgress(width, text)] for a non-empty [text]. *)
Definition progress_at (width : Z) (text : string) (st : state) : state :=
  set_progress
    (set_progressText_textContent text
       (set_progressBar_width (number_to_string width ++ "%") (progress st)))
    st.

(** The page after [hideProgress()]: the hiding is one second away. *)
Definition hide_scheduled (st : state) : state :=
  set_timers (timers st ++ [(1000, HideProgressNow)]) st.

(** The result is revealed: archive reference, output count, download
    region, scroll, and the hiding of the progress region is scheduled. *)
Definition result_revealed (zip : value) (count info : string) (st : state) : state :=
  hide_scheduled
    (set_trace (trace st ++ [ScrollIntoView "downloadSection"])
       (set_download
          {| outputCount_textContent := count;
             downloadSection_display := "block";
             downloadInfo_textContent := info;
             downloadBtn_pulse := downloadBtn_pulse (download st) |}
          (set_currentZipFile zip
             (progress_at 100 "Processing complete!" st)))).

(** The page after the download button has clicked the temporary anchor
    for the archive [ref]. *)
Definition retrieval_started (ref : string) (st : state) : state :=
  set_timers (timers st ++ [(2000, RemovePulse)])
    (set_download (set_downloadBtn_pulse true (download st))
       (set_trace (trace st ++ [AnchorClick ("/download/" ++ ref) ref]) st)).

(** A second file is uploaded after the first one has been processed. *)
Definition second_file : file := {| name := "report.xlsx"; content := "q" |}.

Definition second_upload_result : value :=
  VObj [("filename", VStr "report.xlsx"); ("row_count", VNum 7);
        ("columns", VArr [VStr "k"; VStr "v"])].

Definition second_upload_events : list event :=
  [ Change [sample_file]; Settle 0 (Resolved sample_upload_result);
    ClickProcess; Settle 0 (Resolved sample_process_result);
    Fire 1; Fire 1; Fire 0; Fire 0;
    Drop [second_file]; Settle 0 (Resolved second_upload_result) ].

(** *** Relations between the page before and after a callback *)

(** [m] takes every page to one related to it by [R], whether it returns
    or throws. *)
Definition preserves {A : Type} (R : state -> state -> Prop) (m : M A) : Prop :=
  forall st, R st (snd (m st)).

(** The error region's display is as before, or it has been shown. *)
Definition error_never_cleared (st st' : state) : Prop :=
  errorSection_display (errors st') = errorSection_display (errors st)
  \/ errorSection_display (errors st') = "block".

(** No [beforeunload] listener was added and no cleanup request sent. *)
Definition no_cleanup_activity (st st' : state) : Prop :=
  unloadListeners st' = unloadListeners st
  /\ filter is_cleanup_fetch (trace st') = filter is_cleanup_fetch (trace st).

End Controller.

(** ** Pages to run examples on *)

(** The first file has been chosen and its upload is pending. *)
Definition uploading : state :=
  run_callback (uploadFile sample_file) initial_state.

(** The upload has succeeded. *)
Definition uploaded : state :=
  run_callback
    (settled (env := reference_browser) (UploadReq sample_file)
       (Resolved sample_upload_result))
    (set_inflight [] uploading).

(** The process button was clicked and its request is pending. *)
Definition processing : state := run_callback processBtn_click uploaded.

(** The page an event sequence leads to from a given page (the page
    itself if an event of the sequence is not enabled). *)
Definition page_after (events : list event) (st : state) : state :=
  match run (env := reference_browser) events st with
  | Some st' => st'
  | None => st
  end.

(** The first file has been processed and a second one is being uploaded. *)
Definition second_uploading : state :=
  page_after (removelast second_upload_events) initial_state.

(** A file of another type was chosen: the page shows an error. *)
Definition rejected_file : file := {| name := "notes.txt"; content := "n" |}.

Definition after_rejection : state :=
  run_callback (handleFile rejected_file) initial_state.

(** ** Notions for the properties of the whole script *)

(** The event is a response to a pending upload request. *)
Definition settles_upload (e : event) (st : state) : bool :=
  match e with
  | Settle i (Resolved _) =>
      match nth_error (inflight st) i with
      | Some (UploadReq _) => true
      | _ => false
      end
  | _ => false
  end.

(** The event fires the timer of the last process stage. *)
Definition fires_stage100 (e : event) (st : state) : bool :=
  match e with
  | Fire i =>
      match nth_error (timers st) i with
      | Some (_, ProcessStage100 _) => true
      | _ => false
      end
  | _ => false
  end.

(** A request the handlers' tests should have stopped: an upload of a file
    whose name the pattern rejects, a process request without file name. *)
Definition unvalidated_request (e : effect) : bool :=
  match e with
  | Fetch (UploadReq f) => negb (regex_match extension_pattern (name f))
  | Fetch (ProcessReq body) =>
      match get_prop body "filename" with
      | Ok v => negb (truthy v)
      | Err _ => true
      end
  | _ => false
  end.

(** What is enabled or displayed on [st] is so on [st']. *)
Definition never_undone (st st' : state) : Prop :=
  (processBtn_disabled st = false -> processBtn_disabled st' = false)
  /\ (fileInfo_display (fileInfo st) = "block" ->
      fileInfo_display (fileInfo st') = "block")
  /\ (downloadSection_display (download st) = "block" ->
      downloadSection_display (download st') = "block").


(** Responses that lack a field the script reads. *)
Definition upload_result_without_rows : value :=
  VObj [("filename", VStr "data.csv")].

Definition upload_result_without_name : value :=
  VObj [("row_count", VNum 120);
        ("columns", VArr [VStr "a"; VStr "b"; VStr "c"; VStr "d"; VStr "e"])].

Definition process_result_without_archive : value :=
  VObj [("files_created", VNum 4)].

(** After a successful upload a second file is chosen and its upload fails. *)
Definition failed_second_upload_events : list event :=
  [Change [second_file]; Settle 0 (Resolved sample_error_payload)].

(** A file of another type is dropped, then the sample file is chosen. *)
Definition rejected_then_accepted_events : list event :=
  [Drop [rejected_file]; Change [sample_file]].

(** ** Properties *)

Section Properties.

Context {env : browser}.

(** *** Conversions *)

Example number_to_string_120 : number_to_string 120 = "120".
Proof. reflexivity. Qed.

Example ToString_array :
  ToString (VArr [VStr "a"; VNull; VNum (-4)]) = Ok "a,,-4".
Proof. reflexivity. Qed.

Example extension_pattern_examples :
  map (regex_match extension_pattern)
    ["data.csv"; "Report.XLSX"; "old.Xls"; "data.csv.txt"; "csv"; ".xlsx "]
  = [true; true; true; false; false; false].
Proof. reflexivity. Qed.

(** *** File validation *)

Lemma matchK_iff r : forall s k,
  matchK r s k = true <-> exists rest, matches r s rest /\ k rest = true.
Proof.
  induction r as [|c|r1 IH1 r2 IH2|r1 IH1 r2 IH2|]; intros s k; simpl.
  - split.
    + intros H. exists s. split; [constructor | exact H].
    + intros (rest & Hm & Hk). inversion Hm; subst. exact Hk.
  - destruct s as [|a s].
    + split; [discriminate|]. intros (rest & Hm & _). inversion Hm.
    + destruct (Ascii.eqb_spec (canonicalize a) (canonicalize c)) as [E|E].
      * split.
        -- intros H. exists s. split; [constructor; exact E | exact H].
        -- intros (rest & Hm & Hk). inversion Hm; subst. exact Hk.
      * split; [discriminate|].
        intros (rest & Hm & _). inversion Hm; subst. contradiction.
  - rewrite IH1. split.
    + intros (mid & H1 & H2). apply IH2 in H2. destruct H2 as (rest & H2 & Hk).
      exists rest. split; [econstructor; eassumption | exact Hk].
    + intros (rest & Hm & Hk). inversion Hm; subst.
      eexists. split; [eassumption|]. apply IH2. eauto.
  - rewrite orb_true_iff, IH1, IH2. split.
    + intros [(rest & Hm & Hk)|(rest & Hm & Hk)]; exists rest; split; auto.
      * now apply matches_alt_l.
      * now apply matches_alt_r.
    + intros (rest & Hm & Hk). inversion Hm; subst; [left|right]; eauto.
  - destruct s as [|a s].
    + split.
      * intros H. exists EmptyString. split; [constructor | exact H].
      * intros (rest & Hm & Hk). inversion Hm; subst. exact Hk.
    + split; [discriminate|]. intros (rest & Hm & _). inversion Hm.
Qed.

Lemma regex_match_iff r : forall s,
  regex_match r s = true <->
  exists front back rest, s = front ++ back /\ matches r back rest.
Proof.
  induction s as [|a s IH]; simpl; rewrite orb_true_iff, matchK_iff.
  - split.
    + intros [(rest & Hm & _)|H]; [|discriminate].
      exists EmptyString, EmptyString, rest. auto.
    + intros (front & back & rest & E & Hm). left.
      destruct front; [|discriminate]. simpl in E. subst back. eauto.
  - rewrite IH. split.
    + intros [(rest & Hm & _)|(front & back & rest & E & Hm)].
      * exists EmptyString, (String a s), rest. auto.
      * exists (String a front), back, rest. simpl. now rewrite E.
    + intros (front & back & rest & E & Hm).
      destruct front as [|b front]; simpl in E.
      * left. subst back. eauto.
      * right. injection E as _ E. eauto.
Qed.

Lemma matches_seq_inv r1 r2 s rest :
  matches (Seq r1 r2) s rest ->
  exists mid, matches r1 s mid /\ matches r2 mid rest.
Proof. intros H. inversion H; subst. eauto. Qed.

Lemma matches_chr_inv c s rest :
  matches (Chr c) s rest ->
  exists a, s = String a rest /\ canonicalize a = canonicalize c.
Proof. intros H. inversion H; subst. eauto. Qed.

Lemma matches_alt_inv r1 r2 s rest :
  matches (Alt r1 r2) s rest -> matches r1 s rest \/ matches r2 s rest.
Proof. intros H. inversion H; subst; auto. Qed.

Lemma matches_end_inv s rest :
  matches EndOfInput s rest -> s = EmptyString /\ rest = EmptyString.
Proof. intros H. inversion H; subst. auto. Qed.

Lemma append_empty_r (s : string) : s ++ EmptyString = s.
Proof. induction s; simpl; congruence. Qed.

Lemma matches_lit w : forall s rest,
  matches (lit w) s rest <->
  exists m, s = m ++ rest /\ to_upper m = to_upper w.
Proof.
  induction w as [|c w IH]; intros s rest; simpl.
  - split.
    + intros H. inversion H; subst. exists EmptyString. auto.
    + intros (m & E & U). destruct m; [|discriminate]. subst. constructor.
  - split.
    + intros H. apply matches_seq_inv in H. destruct H as (mid & H1 & H2).
      apply matches_chr_inv in H1. destruct H1 as (a & -> & Ha).
      apply IH in H2. destruct H2 as (m & -> & U).
      exists (String a m). simpl. split; congruence.
    + intros (m & E & U). destruct m as [|a m]; [discriminate|].
      simpl in E, U. injection U as Ua Um. subst s.
      econstructor; [constructor; exact Ua|]. apply IH. eauto.
Qed.

Lemma matches_extension_pattern back rest :
  matches extension_pattern back rest <->
  rest = EmptyString /\
  (to_upper back = to_upper ".xlsx" \/ to_upper back = to_upper ".xls"
   \/ to_upper back = to_upper ".csv").
Proof.
  unfold extension_pattern. split.
  - intros H. apply matches_seq_inv in H. destruct H as (s1 & Hdot & H).
    apply matches_chr_inv in Hdot. destruct Hdot as (a & -> & Ha).
    apply matches_seq_inv in H. destruct H as (s2 & Hext & Hend).
    apply matches_end_inv in Hend. destruct Hend as (-> & ->).
    split; [reflexivity|].
    assert (L : forall w, matches (lit w) s1 EmptyString ->
                          to_upper (String a s1) = to_upper (String "." w)).
    { intros w Hw. apply matches_lit in Hw. destruct Hw as (m & E & U).
      rewrite append_empty_r in E. subst m. simpl. now rewrite Ha, U. }
    apply matches_alt_inv in Hext. destruct Hext as [Hx|Hext].
    + left. exact (L _ Hx).
    + apply matches_alt_inv in Hext. destruct Hext as [Hx|Hx].
      * right; left. exact (L _ Hx).
      * right; right. exact (L _ Hx).
  - intros (-> & H).
    assert (R : forall w, to_upper back = to_upper (String "." w) ->
              exists a s1, back = String a s1 /\ canonicalize a = canonicalize "."
                           /\ matches (lit w) s1 EmptyString).
    { intros w U. destruct back as [|a s1]; [discriminate|].
      simpl in U. injection U as Ua Us. exists a, s1. repeat split; auto.
      apply matches_lit. exists s1. now rewrite append_empty_r. }
    destruct H as [H|[H|H]]; apply R in H; destruct H as (a & s1 & -> & Ha & Hm);
      (econstructor; [constructor; exact Ha|]);
      (econstructor; [|constructor]).
    + now apply matches_alt_l.
    + now apply matches_alt_r, matches_alt_l.
    + now apply matches_alt_r, matches_alt_r.
Qed.

Lemma extension_pattern_spec s :
  regex_match extension_pattern s = true <-> recognized_extension s.
Proof.
  rewrite regex_match_iff. unfold recognized_extension, ends_with_ignoring_case.
  split.
  - intros (front & back & rest & E & Hm).
    apply matches_extension_pattern in Hm. destruct Hm as (_ & [H|[H|H]]);
      [left|right;left|right;right]; eauto.
  - intros [H|[H|H]]; destruct H as (front & back & E & U);
      exists front, back, EmptyString; (split; [exact E|]);
      apply matches_extension_pattern; auto.
Qed.
(** *** Stepping through a callback *)

Ltac js_unfold :=
  cbv [handleFile uploadFile upload_then upload_catch upload_settled
       processBtn_click process_then process_catch process_settled
       process_stage80 process_stage100 downloadBtn_click
       beforeunload_listener cleanup_settled DOMContentLoaded_listener
       dragover_listener dragleave_listener drop_listener change_listener
       run_task settled
       showProgress updateProgress hideProgress showError hideError
       call_toLocaleString
       run_callback bind ret throw try_catch lift modify gets emit fetch
       setTimeout on_uploadArea on_fileInfo on_progress on_errors on_download].

Lemma filter_app_one {A : Type} (p : A -> bool) (l : list A) (x : A) :
  p x = false -> filter p (l ++ [x]) = filter p l.
Proof.
  intros H. rewrite filter_app. simpl. rewrite H. apply app_nil_r.
Qed.

(** C5: a file is accepted exactly when its name ends, ignoring case, with
    .xlsx, .xls or .csv.  An accepted file is handed to [uploadFile], which
    sends it; a rejected one only shows the message that names the three
    extensions: nothing is sent and nothing else on the page changes. *)
Theorem file_validator_accepts_recognized_extensions (f : file) (st : state) :
  (regex_match extension_pattern (name f) = true <-> recognized_extension (name f))
  /\ (recognized_extension (name f) ->
      handleFile f st = uploadFile f st
      /\ trace (run_callback (uploadFile f) st)
         = (trace st ++ [Fetch (UploadReq f)])%list)
  /\ (~ recognized_extension (name f) ->
      run_callback (handleFile f) st
      = set_trace (trace st ++ [ScrollIntoView "errorSection"])
          (set_errors
             {| errorSection_display := "block";
                errorMessage_textContent :=
                  "Please upload an Excel (.xlsx, .xls) or CSV (.csv) file." |}
             st)
      /\ inflight (run_callback (handleFile f) st) = inflight st
      /\ filter is_fetch (trace (run_callback (handleFile f) st))
         = filter is_fetch (trace st)).
Proof.
  split; [apply extension_pattern_spec|].
  split.
  - intros H. apply extension_pattern_spec in H.
    unfold handleFile. rewrite H. split; reflexivity.
  - intros H.
    assert (E : regex_match extension_pattern (name f) = false).
    { destruct (regex_match extension_pattern (name f)) eqn:E; [|reflexivity].
      apply extension_pattern_spec in E. contradiction. }
    unfold handleFile. rewrite E. js_unfold. simpl.
    repeat split. now apply filter_app_one.
Qed.

(** *** Preconditions of process and download *)

Lemma nullish_not_truthy v : nullish v = true -> truthy v = false.
Proof. now destruct v. Qed.

Lemma truthy_string s : s <> EmptyString -> truthy (VStr s) = true.
Proof.
  intros H. simpl. destruct (String.eqb_spec s EmptyString); [contradiction|reflexivity].
Qed.

Lemma showError_string message st :
  showError (VStr message) st = (Ok tt, error_shown message st).
Proof. reflexivity. Qed.

(** C3: with no uploaded file name in the session, a click on the process
    button shows exactly "Please upload a file first." and does nothing
    else: no request is sent or pending, and the session, the timers and
    the rest of the page are as before. *)
Theorem process_without_upload_fails_locally (st : state) :
  nullish (currentFilename st) = true ->
  dispatch ClickProcess st = Some (error_shown "Please upload a file first." st)
  /\ errorMessage_textContent (errors (error_shown "Please upload a file first." st))
     = "Please upload a file first."
  /\ inflight (error_shown "Please upload a file first." st) = inflight st
  /\ filter is_fetch (trace (error_shown "Please upload a file first." st))
     = filter is_fetch (trace st)
  /\ trace (error_shown "Please upload a file first." st)
     = (trace st ++ [ScrollIntoView "errorSection"])%list
  /\ currentFilename (error_shown "Please upload a file first." st)
     = currentFilename st
  /\ currentZipFile (error_shown "Please upload a file first." st)
     = currentZipFile st
  /\ timers (error_shown "Please upload a file first." st) = timers st
  /\ progress (error_shown "Please upload a file first." st) = progress st
  /\ uploadArea (error_shown "Please upload a file first." st) = uploadArea st
  /\ fileInfo (error_shown "Please upload a file first." st) = fileInfo st
  /\ download (error_shown "Please upload a file first." st) = download st
  /\ processBtn_disabled (error_shown "Please upload a file first." st)
     = processBtn_disabled st.
Proof.
  intros H. apply nullish_not_truthy in H.
  split; [|split; [|split; [|split]]]; try reflexivity.
  - simpl. unfold processBtn_click, run_callback, bind, gets. now rewrite H.
  - simpl. now apply filter_app_one.
  - repeat split.
Qed.

Lemma downloadBtn_click_retrieves (ref : string) (st : state) :
  currentZipFile st = VStr ref -> ref <> EmptyString ->
  dispatch ClickDownload st = Some (retrieval_started ref st).
Proof.
  intros E Hne. apply truthy_string in Hne.
  simpl. js_unfold. rewrite E, Hne. simpl. rewrite E. reflexivity.
Qed.

(** C4: a click on the download button with no archive reference in the
    session shows exactly "No file available for download." and retrieves
    nothing; with a reference [ref] it clicks one anchor whose target is
    "/download/" followed by [ref]. *)
Theorem download_requires_archive_reference (st : state) :
  (nullish (currentZipFile st) = true ->
   dispatch ClickDownload st
   = Some (error_shown "No file available for download." st)
   /\ filter is_retrieval (trace (error_shown "No file available for download." st))
      = filter is_retrieval (trace st))
  /\ (forall ref, currentZipFile st = VStr ref -> ref <> EmptyString ->
      dispatch ClickDownload st = Some (retrieval_started ref st)
      /\ trace (retrieval_started ref st)
         = (trace st ++ [AnchorClick ("/download/" ++ ref) ref])%list
      /\ List.length (filter is_retrieval (trace (retrieval_started ref st)))
         = S (List.length (filter is_retrieval (trace st)))).
Proof.
  split.
  - intros H. apply nullish_not_truthy in H. split.
    + simpl. unfold downloadBtn_click, run_callback, bind, gets. now rewrite H.
    + simpl. now apply filter_app_one.
  - intros ref E Hne. split; [|split].
    + now apply downloadBtn_click_retrieves.
    + reflexivity.
    + simpl. rewrite filter_app, length_app. simpl. lia.
Qed.

(** The tests are truthiness tests: an empty string in either session
    variable is treated as an absent one. *)
Lemma empty_reference_counts_as_absent (st : state) :
  currentZipFile st = VStr EmptyString ->
  dispatch ClickDownload st
  = Some (error_shown "No file available for download." st).
Proof.
  intros E. simpl. unfold downloadBtn_click, run_callback, bind, gets.
  now rewrite E.
Qed.

(** *** Frame rules

    What every callback of the session (everything but the two page
    life-cycle listeners) preserves, given that each write it can make
    does. *)

Section Frame.

Variable R : state -> state -> Prop.
Hypothesis R_refl : forall st, R st st.
Hypothesis R_trans : forall a b c, R a b -> R b c -> R a c.
Hypothesis R_uploadArea : forall v st, R st (set_uploadArea v st).
Hypothesis R_fileInfo : forall v st, R st (set_fileInfo v st).
Hypothesis R_progress : forall v st, R st (set_progress v st).
Hypothesis R_download : forall v st, R st (set_download v st).
Hypothesis R_error_message :
  forall t st, R st (set_errors (set_errorMessage_textContent t (errors st)) st).
Hypothesis R_error_show :
  forall st, R st (set_errors (set_errorSection_display "block" (errors st)) st).
Hypothesis R_currentFilename : forall v st, R st (set_currentFilename v st).
Hypothesis R_currentZipFile : forall v st, R st (set_currentZipFile v st).
Hypothesis R_processBtn : forall b st, R st (set_processBtn_disabled b st).
Hypothesis R_inflight : forall l st, R st (set_inflight l st).
Hypothesis R_timers : forall l st, R st (set_timers l st).
Hypothesis R_trace :
  forall e st, is_cleanup_fetch e = false -> R st (set_trace (trace st ++ [e]) st).

Lemma preserves_ret {A : Type} (a : A) : preserves R (ret a).
Proof. intros st. apply R_refl. Qed.

Lemma preserves_throw {A : Type} (e : js_error) : preserves R (@throw A e).
Proof. intros st. apply R_refl. Qed.

Lemma preserves_lift {A : Type} (r : result A) : preserves R (lift r).
Proof. intros st. apply R_refl. Qed.

Lemma preserves_gets {A : Type} (f : state -> A) : preserves R (gets f).
Proof. intros st. apply R_refl. Qed.

Lemma preserves_modify (f : state -> state) :
  (forall st, R st (f st)) -> preserves R (modify f).
Proof. intros H st. apply H. Qed.

Lemma preserves_bind {A B : Type} (m : M A) (k : A -> M B) :
  preserves R m -> (forall a, preserves R (k a)) -> preserves R (bind m k).
Proof.
  intros Hm Hk st. unfold bind. specialize (Hm st).
  destruct (m st) as [[a|e] st1]; simpl in *.
  - eapply R_trans; [exact Hm | apply Hk].
  - exact Hm.
Qed.

Lemma preserves_try_catch {A : Type} (m : M A) (h : js_error -> M A) :
  preserves R m -> (forall e, preserves R (h e)) -> preserves R (try_catch m h).
Proof.
  intros Hm Hh st. unfold try_catch. specialize (Hm st).
  destruct (m st) as [[a|e] st1]; simpl in *.
  - exact Hm.
  - eapply R_trans; [exact Hm | apply Hh].
Qed.

Lemma preserves_emit (e : effect) :
  is_cleanup_fetch e = false -> preserves R (emit e).
Proof. intros H. apply preserves_modify. intros st. now apply R_trace. Qed.

Ltac frame :=
  repeat first
    [ apply preserves_ret | apply preserves_throw | apply preserves_lift
    | apply preserves_gets
    | apply preserves_bind; [|intros ?]
    | apply preserves_try_catch; [|intros ?]
    | apply preserves_emit; reflexivity
    | apply preserves_modify; intros ?;
      first [ apply R_uploadArea | apply R_fileInfo | apply R_progress
            | apply R_download | apply R_error_message | apply R_error_show
            | apply R_currentFilename | apply R_currentZipFile
            | apply R_processBtn | apply R_inflight | apply R_timers ]
    | match goal with
      | |- preserves _ (if ?b then _ else _) => destruct b
      | |- preserves _ (match ?x with _ => _ end) => destruct x
      end ].

Lemma preserves_showError message : preserves R (showError message).
Proof. unfold showError, on_errors. frame. Qed.

Lemma preserves_hideProgress : preserves R hideProgress.
Proof. unfold hideProgress, setTimeout. frame. Qed.

Lemma preserves_showProgress text width : preserves R (showProgress text width).
Proof. unfold showProgress, on_progress. frame. Qed.

Lemma preserves_updateProgress width text : preserves R (updateProgress width text).
Proof. unfold updateProgress, on_progress. frame. Qed.

Lemma preserves_handleFile f : preserves R (handleFile f).
Proof.
  unfold handleFile, uploadFile, fetch. frame.
Qed.

Lemma preserves_upload_settled o : preserves R (upload_settled o).
Proof.
  unfold upload_settled, upload_then, upload_catch, call_toLocaleString,
    on_fileInfo, on_uploadArea.
  frame.
Qed.

Lemma preserves_processBtn_click : preserves R processBtn_click.
Proof.
  unfold processBtn_click, fetch. frame.
Qed.

Lemma preserves_process_settled o : preserves R (process_settled o).
Proof.
  unfold process_settled, process_then, process_catch, setTimeout.
  frame.
Qed.

Lemma preserves_run_task t : preserves R (run_task t).
Proof.
  destruct t; unfold run_task, process_stage80, process_stage100, setTimeout,
    on_progress, on_download.
  all: frame.
Qed.

Lemma preserves_downloadBtn_click : preserves R downloadBtn_click.
Proof.
  unfold downloadBtn_click, setTimeout, on_download. frame.
Qed.

Lemma preserves_cleanup_settled o : preserves R (cleanup_settled o).
Proof. unfold cleanup_settled. frame. Qed.

Lemma preserves_drag_listeners files :
  preserves R dragover_listener /\ preserves R dragleave_listener
  /\ preserves R (drop_listener files) /\ preserves R (change_listener files).
Proof.
  unfold dragover_listener, dragleave_listener, drop_listener, change_listener,
    on_uploadArea.
  repeat split; frame; apply preserves_handleFile.
Qed.

Lemma run_callback_frame (m : M unit) st :
  preserves R m -> R st (run_callback m st).
Proof.
  intros H. unfold run_callback. specialize (H st).
  destruct (m st) as [[u|e] st1]; simpl in *.
  - exact H.
  - eapply R_trans; [exact H | now apply R_trace].
Qed.

(** Every event of the session takes the page to a related one. *)
Lemma dispatch_frame e st st' :
  is_lifecycle e = false -> dispatch e st = Some st' -> R st st'.
Proof.
  intros He H. destruct e; try discriminate; simpl in H.
  1-6: injection H as <-; apply run_callback_frame.
  - apply (preserves_drag_listeners []).
  - apply (preserves_drag_listeners []).
  - apply (preserves_drag_listeners files).
  - apply (preserves_drag_listeners files).
  - apply preserves_processBtn_click.
  - apply preserves_downloadBtn_click.
  - destruct (nth_error (inflight st) i) as [r|]; [|discriminate].
    injection H as <-.
    eapply R_trans; [apply R_inflight|]. apply run_callback_frame.
    destruct r; simpl.
    + apply preserves_upload_settled.
    + apply preserves_process_settled.
    + apply preserves_cleanup_settled.
  - destruct (nth_error (timers st) i) as [[d t]|]; [|discriminate].
    injection H as <-.
    eapply R_trans; [apply R_timers|]. apply run_callback_frame.
    apply preserves_run_task.
Qed.

End Frame.

(** *** The error region is never hidden *)

Lemma error_never_cleared_refl st : error_never_cleared st st.
Proof. now left. Qed.

Lemma error_never_cleared_trans a b c :
  error_never_cleared a b -> error_never_cleared b c -> error_never_cleared a c.
Proof.
  unfold error_never_cleared. intros [H1|H1] [H2|H2]; rewrite ?H2, ?H1; auto.
Qed.

Lemma beforeunload_listeners_run n st :
  Nat.iter n (run_callback beforeunload_listener) st
  = set_inflight (inflight st ++ repeat CleanupReq n)
      (set_trace (trace st ++ repeat (Fetch CleanupReq) n) st).
Proof.
  revert st. induction n as [|n IH]; intros st.
  - simpl. rewrite !app_nil_r. now destruct st.
  - rewrite Nat.iter_succ_r. rewrite IH. simpl.
    unfold set_inflight, set_trace. simpl.
    now rewrite <- !app_assoc.
Qed.

Lemma dispatch_never_clears_error e st st' :
  dispatch e st = Some st' -> error_never_cleared st st'.
Proof.
  intros H. destruct (is_lifecycle e) eqn:L.
  - destruct e; try discriminate; simpl in H; injection H as <-.
    + now left.
    + rewrite beforeunload_listeners_run. now left.
  - revert H. apply dispatch_frame; auto using error_never_cleared_refl;
      try (intros; now left).
    + apply error_never_cleared_trans.
    + intros. now right.
Qed.

Lemma run_never_clears_error events : forall st st',
  run events st = Some st' -> error_never_cleared st st'.
Proof.
  induction events as [|e events IH]; intros st st' H; simpl in H.
  - injection H as <-. apply error_never_cleared_refl.
  - destruct (dispatch e st) as [st1|] eqn:D; [|discriminate].
    eapply error_never_cleared_trans.
    + eapply dispatch_never_clears_error; eassumption.
    + now apply IH.
Qed.

(** C10: no event handler, promise callback or timer hides the error
    region.  Over any sequence of events its display changes only by being
    shown, so an error that is visible stays visible; [hideError] would
    hide it, but nothing runs [hideError]. *)
Theorem error_region_stays_visible (events : list event) (st st' : state) :
  run events st = Some st' ->
  error_never_cleared st st'
  /\ (errorSection_display (errors st) = "block" ->
      errorSection_display (errors st') = "block")
  /\ errorSection_display (errors (run_callback hideError st')) = "none".
Proof.
  intros H. apply run_never_clears_error in H.
  split; [exact H|]. split; [|reflexivity].
  intros V. destruct H as [H|H]; congruence.
Qed.

(** *** Cleanup on unload *)

Lemma nth_error_last {A : Type} (l : list A) (x : A) :
  nth_error (l ++ [x]) (List.length l) = Some x.
Proof. induction l; simpl; auto. Qed.

Lemma remove_at_last {A : Type} (l : list A) (x : A) :
  remove_at (List.length l) (l ++ [x]) = l.
Proof.
  unfold remove_at. induction l as [|a l IH]; simpl; [reflexivity|].
  simpl in IH. now rewrite IH.
Qed.

Lemma no_cleanup_activity_refl st : no_cleanup_activity st st.
Proof. now split. Qed.

Lemma no_cleanup_activity_trans a b c :
  no_cleanup_activity a b -> no_cleanup_activity b c -> no_cleanup_activity a c.
Proof. intros [H1 H2] [H3 H4]. split; congruence. Qed.

Lemma session_event_no_cleanup e st st' :
  is_lifecycle e = false -> dispatch e st = Some st' -> no_cleanup_activity st st'.
Proof.
  apply dispatch_frame; auto using no_cleanup_activity_refl;
    try (intros; now split).
  - apply no_cleanup_activity_trans.
  - intros e0 st0 H. split; [reflexivity|]. simpl. now apply filter_app_one.
Qed.

Lemma session_events_no_cleanup events : forall st st',
  forallb (fun e => negb (is_lifecycle e)) events = true ->
  run events st = Some st' -> no_cleanup_activity st st'.
Proof.
  induction events as [|e events IH]; intros st st' L H; simpl in *.
  - injection H as <-. apply no_cleanup_activity_refl.
  - apply andb_true_iff in L. destruct L as [Le L].
    apply negb_true_iff in Le.
    destruct (dispatch e st) as [st1|] eqn:D; [|discriminate].
    eapply no_cleanup_activity_trans.
    + eapply session_event_no_cleanup; eassumption.
    + now apply IH.
Qed.

(** C9: the page has loaded ([DOMContentLoaded]) and any events of the
    session have followed.  Leaving the page then sends one cleanup request,
    the only one of the page's life, without waiting for it; if the request
    fails the error is logged to the console and nothing else changes: the
    error region is as it was. *)
Theorem unload_sends_one_cleanup_request
    (events : list event) (st : state) (error : js_error) :
  forallb (fun e => negb (is_lifecycle e)) events = true ->
  run (DOMContentLoaded :: events) initial_state = Some st ->
  exists st',
    dispatch BeforeUnload st = Some st'
    /\ cleanup_requests st = 0%nat
    /\ cleanup_requests st' = 1%nat
    /\ trace st' = (trace st ++ [Fetch CleanupReq])%list
    /\ inflight st' = (inflight st ++ [CleanupReq])%list
    /\ dispatch (Settle (List.length (inflight st)) (Rejected error)) st'
       = Some (set_trace (trace st' ++ [ConsoleError "Cleanup error:" error])
                 (set_inflight (inflight st) st'))
    /\ errors (set_trace (trace st' ++ [ConsoleError "Cleanup error:" error])
                 (set_inflight (inflight st) st'))
       = errors st.
Proof.
  intros L H. simpl in H.
  apply (session_events_no_cleanup _ _ _ L) in H.
  destruct H as [Hl Ht]. simpl in Hl, Ht.
  eexists. split; [reflexivity|].
  rewrite beforeunload_listeners_run, Hl. simpl repeat.
  assert (C0 : cleanup_requests st = 0%nat).
  { unfold cleanup_requests. now rewrite Ht. }
  repeat split.
  - exact C0.
  - unfold cleanup_requests in *. simpl. rewrite filter_app, length_app.
    simpl. lia.
  - cbn [dispatch inflight set_inflight set_trace].
    now rewrite nth_error_last, remove_at_last.
Qed.

(** *** Upload *)

(** C8: a pending upload settles with a response that has no error payload
    and carries a file name, a row count and the column names.  The file
    name is stored in the session, the hiding of the progress region is
    scheduled (and hides it when the timer fires), the upload area shows the
    success markup in green, and the process button, disabled when the page
    starts, is enabled. *)
Theorem upload_success_enables_process
    (st : state) (i : nat) (f : file) (data err : value)
    (fname : string) (rows : Z) (rows_text : string) (cols : list value) :
  nth_error (inflight st) i = Some (UploadReq f) ->
  get_prop data "error" = Ok err ->
  truthy err = false ->
  get_prop data "filename" = Ok (VStr fname) ->
  get_prop data "row_count" = Ok (VNum rows) ->
  toLocaleString (VNum rows) = Ok rows_text ->
  get_prop data "columns" = Ok (VArr cols) ->
  exists st',
    dispatch (Settle i (Resolved data)) st = Some st'
    /\ currentFilename st' = VStr fname
    /\ timers st' = (timers st ++ [(1000, HideProgressNow)])%list
    /\ progressContainer_display
         (progress (run_callback (run_task HideProgressNow) st')) = "none"
    /\ uploadArea st'
       = {| uploadArea_borderColor := "#28a745";
            uploadArea_background := "#f0f4ff";
            uploadArea_innerHTML :=
              success_markup fname rows_text
                (number_to_string (Z.of_nat (List.length cols))) |}
    /\ processBtn_disabled st' = false
    /\ processBtn_disabled initial_state = true
    /\ errors st' = errors st
    /\ inflight st' = remove_at i (inflight st).
Proof.
  intros Hreq Herr Hfalsy Hname Hrows Hlocale Hcols.
  eexists. split.
  - cbn [dispatch]. rewrite Hreq. js_unfold.
    repeat (progress rewrite ?Herr, ?Hfalsy, ?Hname, ?Hrows, ?Hlocale, ?Hcols;
            simpl).
    reflexivity.
  - repeat split.
Qed.

Ltac js_cases :=
  repeat (simpl;
          match goal with
          | |- context [match get_prop ?a ?b with _ => _ end] =>
              destruct (get_prop a b)
          | |- context [match to_text ?a with _ => _ end] => destruct (to_text a)
          | |- context [match ToString ?a with _ => _ end] => destruct (ToString a)
          | |- context [match toLocaleString ?a with _ => _ end] =>
              destruct (toLocaleString a)
          | |- context [if nullish ?a then _ else _] => destruct (nullish a)
          end).

(** C1, as the script has it: a successful upload stores the new file name
    and leaves the archive reference and the download region as they were;
    a reference stored by an earlier process stays until the next successful
    process replaces it. *)
Theorem upload_success_replaces_file_name_only
    (st : state) (i : nat) (f : file) (data err fname : value) :
  nth_error (inflight st) i = Some (UploadReq f) ->
  get_prop data "error" = Ok err ->
  truthy err = false ->
  get_prop data "filename" = Ok fname ->
  exists st',
    dispatch (Settle i (Resolved data)) st = Some st'
    /\ currentFilename st' = fname
    /\ currentZipFile st' = currentZipFile st
    /\ download st' = download st.
Proof.
  intros Hreq Herr Hfalsy Hname.
  eexists. split; [cbn [dispatch]; rewrite Hreq; reflexivity|].
  js_unfold.
  repeat (progress rewrite ?Herr, ?Hfalsy, ?Hname; simpl).
  js_cases; repeat split.
Qed.

(** *** Failures of upload and process *)

(** A rejected upload: the message of the error after the script's prefix,
    and the progress region is hidden. *)
Lemma upload_rejection_reported (error : js_error) (st : state) :
  run_callback (upload_settled (Rejected error)) st
  = hide_scheduled (error_shown ("Error uploading file: " ++ error_message error) st).
Proof. reflexivity. Qed.

Lemma process_rejection_reported (error : js_error) (st : state) :
  run_callback (process_settled (Rejected error)) st
  = hide_scheduled (error_shown ("Error processing file: " ++ error_message error) st).
Proof. reflexivity. Qed.

(** An error payload on process: the message as it is, and the progress
    region is hidden. *)
Lemma process_error_payload_reported (data : value) (message : string) (st : state) :
  get_prop data "error" = Ok (VStr message) -> message <> EmptyString ->
  run_callback (process_settled (Resolved data)) st
  = hide_scheduled (error_shown message st).
Proof.
  intros H Hne. apply truthy_string in Hne. js_unfold.
  rewrite H. simpl in Hne |- *. rewrite Hne. reflexivity.
Qed.

(** An error payload on upload: the message as it is; [hideProgress] is not
    called on this path, so no timer is added and the progress region stays
    as the upload left it. *)
Lemma upload_error_payload_reported (data : value) (message : string) (st : state) :
  get_prop data "error" = Ok (VStr message) -> message <> EmptyString ->
  run_callback (upload_settled (Resolved data)) st = error_shown message st.
Proof.
  intros H Hne. apply truthy_string in Hne. js_unfold.
  rewrite H. simpl in Hne |- *. rewrite Hne. reflexivity.
Qed.

(** None of the four failure paths writes the session variables. *)
Lemma failures_leave_session_unchanged (message : string) (st : state) :
  currentFilename (error_shown message st) = currentFilename st
  /\ currentZipFile (error_shown message st) = currentZipFile st
  /\ currentFilename (hide_scheduled (error_shown message st)) = currentFilename st
  /\ currentZipFile (hide_scheduled (error_shown message st)) = currentZipFile st.
Proof. repeat split. Qed.

(** *** Process *)

Lemma processBtn_click_sends (st : state) :
  truthy (currentFilename st) = true ->
  run_callback processBtn_click st
  = set_inflight (inflight st ++ [ProcessReq (VObj [("filename", currentFilename st)])])
      (set_trace (trace st ++ [Fetch (ProcessReq (VObj [("filename", currentFilename st)]))])
         (set_progress
            {| progressContainer_display := "block";
               progressBar_width := "10%";
               progressText_textContent := "Processing file... This may take a moment..." |}
            st)).
Proof.
  intros H. js_unfold. rewrite H. reflexivity.
Qed.

Lemma process_then_success (data err : value) (st : state) :
  get_prop data "error" = Ok err -> truthy err = false ->
  run_callback (process_settled (Resolved data)) st
  = set_timers (timers st ++ [(1000, ProcessStage80 data)])
      (progress_at 50 "Creating Excel files..." st).
Proof.
  intros H F. js_unfold. rewrite H. simpl. rewrite F. reflexivity.
Qed.

Lemma process_stage80_runs (data : value) (st : state) :
  run_callback (run_task (ProcessStage80 data)) st
  = set_timers (timers st ++ [(1000, ProcessStage100 data)])
      (progress_at 80 "Creating ZIP archive..." st).
Proof. reflexivity. Qed.

Lemma process_stage100_runs (data zip files_created : value) (count text : string)
    (st : state) :
  get_prop data "zip_file" = Ok zip ->
  get_prop data "files_created" = Ok files_created ->
  to_text files_created = Ok count ->
  ToString files_created = Ok text ->
  run_callback (run_task (ProcessStage100 data)) st
  = result_revealed zip count
      ("Created " ++ text ++ " Excel files in the ZIP archive.") st.
Proof.
  intros Hz Hf Hc Ht. js_unfold.
  repeat (progress rewrite ?Hz, ?Hf, ?Hc, ?Ht; simpl). reflexivity.
Qed.

Lemma hide_progress_fires (st : state) :
  progressContainer_display
    (progress (run_callback (run_task HideProgressNow) st)) = "none".
Proof. reflexivity. Qed.

Lemma dispatch_settle_last (r : request) (o : outcome) (st : state) (pending : list request) :
  inflight st = (pending ++ [r])%list ->
  dispatch (Settle (List.length pending) o) st
  = Some (run_callback (settled r o) (set_inflight pending st)).
Proof.
  intros H. cbn [dispatch]. now rewrite H, nth_error_last, remove_at_last.
Qed.

Lemma dispatch_fire_last (d : Z) (t : task) (st : state) (pending : list (Z * task)) :
  timers st = (pending ++ [(d, t)])%list ->
  dispatch (Fire (List.length pending)) st
  = Some (run_callback (run_task t) (set_timers pending st)).
Proof.
  intros H. cbn [dispatch]. now rewrite H, nth_error_last, remove_at_last.
Qed.

Lemma to_text_of_ToString (v : value) (text : string) :
  ToString v = Ok text ->
  to_text v = Ok (if nullish v then EmptyString else text).
Proof. intros H. unfold to_text. now destruct (nullish v). Qed.

(** C6: a click on the process button with a file name in the session,
    answered by a response without error payload.  The progress region
    shows 10% with the first label when the request goes out, 50% when the
    response arrives, 80% when the timer set then (1000 ms) fires, 100% when
    the timer set by that one (1000 ms) fires; each timer is set only by the
    stage before it.  At 100% the archive reference and the output count
    are on the page, and the timer set then (1000 ms) hides the region. *)
Theorem process_progress_in_order
    (st : state) (data err zip files_created : value) (text : string) :
  truthy (currentFilename st) = true ->
  get_prop data "error" = Ok err ->
  truthy err = false ->
  get_prop data "zip_file" = Ok zip ->
  get_prop data "files_created" = Ok files_created ->
  ToString files_created = Ok text ->
  exists s1 s2 s3 s4 s5,
    dispatch ClickProcess st = Some s1
    /\ progress s1
       = {| progressContainer_display := "block";
            progressBar_width := "10%";
            progressText_textContent := "Processing file... This may take a moment..." |}
    /\ timers s1 = timers st
    /\ dispatch (Settle (List.length (inflight st)) (Resolved data)) s1 = Some s2
    /\ progress s2
       = {| progressContainer_display := "block";
            progressBar_width := "50%";
            progressText_textContent := "Creating Excel files..." |}
    /\ timers s2 = (timers st ++ [(1000, ProcessStage80 data)])%list
    /\ dispatch (Fire (List.length (timers st))) s2 = Some s3
    /\ progress s3
       = {| progressContainer_display := "block";
            progressBar_width := "80%";
            progressText_textContent := "Creating ZIP archive..." |}
    /\ timers s3 = (timers st ++ [(1000, ProcessStage100 data)])%list
    /\ dispatch (Fire (List.length (timers st))) s3 = Some s4
    /\ progress s4
       = {| progressContainer_display := "block";
            progressBar_width := "100%";
            progressText_textContent := "Processing complete!" |}
    /\ currentZipFile s4 = zip
    /\ outputCount_textContent (download s4)
       = (if nullish files_created then EmptyString else text)
    /\ downloadSection_display (download s4) = "block"
    /\ timers s4 = (timers st ++ [(1000, HideProgressNow)])%list
    /\ dispatch (Fire (List.length (timers st))) s4 = Some s5
    /\ progress s5
       = {| progressContainer_display := "none";
            progressBar_width := "100%";
            progressText_textContent := "Processing complete!" |}.
Proof.
  intros Hname Herr Hfalsy Hzip Hcount Htext.
  pose proof (to_text_of_ToString _ _ Htext) as Hshown.
  do 5 eexists.
  split. { cbn [dispatch]. rewrite (processBtn_click_sends _ Hname). reflexivity. }
  split; [reflexivity|]. split; [reflexivity|].
  split.
  { erewrite dispatch_settle_last by reflexivity. cbn [settled].
    erewrite process_then_success by eassumption. reflexivity. }
  split; [reflexivity|]. split; [reflexivity|].
  split.
  { erewrite dispatch_fire_last by reflexivity.
    rewrite process_stage80_runs. reflexivity. }
  split; [reflexivity|]. split; [reflexivity|].
  split.
  { erewrite dispatch_fire_last by reflexivity.
    erewrite process_stage100_runs by eassumption. reflexivity. }
  split; [reflexivity|]. split; [reflexivity|]. split; [reflexivity|].
  split; [reflexivity|]. split; [reflexivity|].
  split.
  { erewrite dispatch_fire_last by reflexivity. reflexivity. }
  reflexivity.
Qed.

(** C7: a pending process request settles with a response that carries an
    archive reference and a file count, and the two timers of 1000 ms fire.
    The session then holds the archive reference, the output count shows
    the file count, the download region is displayed and scrolled into view,
    and a click on the download button retrieves that archive. *)
Theorem process_success_reveals_download
    (st : state) (pending : list request) (body data err : value)
    (zip : string) (n : Z) :
  inflight st = (pending ++ [ProcessReq body])%list ->
  get_prop data "error" = Ok err ->
  truthy err = false ->
  get_prop data "zip_file" = Ok (VStr zip) ->
  zip <> EmptyString ->
  get_prop data "files_created" = Ok (VNum n) ->
  exists st',
    run [Settle (List.length pending) (Resolved data);
         Fire (List.length (timers st)); Fire (List.length (timers st))] st
    = Some st'
    /\ currentZipFile st' = VStr zip
    /\ outputCount_textContent (download st') = number_to_string n
    /\ downloadInfo_textContent (download st')
       = "Created " ++ number_to_string n ++ " Excel files in the ZIP archive."
    /\ downloadSection_display (download st') = "block"
    /\ progressBar_width (progress st') = "100%"
    /\ trace st' = (trace st ++ [ScrollIntoView "downloadSection"])%list
    /\ dispatch ClickDownload st' = Some (retrieval_started zip st')
    /\ trace (retrieval_started zip st')
       = (trace st' ++ [AnchorClick ("/download/" ++ zip) zip])%list.
Proof.
  intros Hreq Herr Hfalsy Hzip Hne Hcount.
  eexists. split.
  { cbn [run]. erewrite dispatch_settle_last by eassumption. cbn [settled].
    erewrite process_then_success by eassumption.
    erewrite dispatch_fire_last by reflexivity.
    rewrite process_stage80_runs.
    erewrite dispatch_fire_last by reflexivity.
    erewrite process_stage100_runs by (eassumption || reflexivity).
    reflexivity. }
  repeat split; try reflexivity.
  now apply downloadBtn_click_retrieves.
Qed.

End Properties.

(** ** The properties on the example pages *)

(** C1 does not hold as the spec states it: after the first file has been
    processed and a second file uploaded, the session holds the new file
    name together with the archive reference of the first file, and the
    download button retrieves that archive. *)
Lemma second_upload_keeps_prior_archive :
  exists st,
    run (env := reference_browser) second_upload_events initial_state = Some st
    /\ currentFilename st = VStr "report.xlsx"
    /\ currentZipFile st = VStr "out_123.zip"
    /\ dispatch (env := reference_browser) ClickDownload st
       = Some (retrieval_started "out_123.zip" st)
    /\ trace (retrieval_started "out_123.zip" st)
       = (trace st ++ [AnchorClick "/download/out_123.zip" "out_123.zip"])%list.
Proof.
  eexists. split; [vm_compute; reflexivity|]. repeat split.
Qed.

Lemma upload_success_replaces_file_name_only_witness :
  exists st',
    dispatch (env := reference_browser) (Settle 0 (Resolved second_upload_result))
      second_uploading = Some st'
    /\ currentFilename st' = VStr "report.xlsx"
    /\ currentZipFile st' = VStr "out_123.zip"
    /\ download st' = download second_uploading.
Proof.
  exact (upload_success_replaces_file_name_only (env := reference_browser)
           second_uploading 0 second_file second_upload_result VUndef
           (VStr "report.xlsx") eq_refl eq_refl eq_refl eq_refl).
Defined.

(** C2 at the spec's error payload: the failed upload shows the message and
    leaves the session as it was, but sets no timer, and the progress region
    stays displayed at "Uploading file..."; the same payload on a process
    request does schedule the hiding. *)
Theorem upload_error_payload_leaves_progress_displayed :
  dispatch (env := reference_browser) (Settle 0 (Resolved sample_error_payload))
    uploading
  = Some (error_shown "Unsupported encoding" (set_inflight [] uploading))
  /\ progress (error_shown "Unsupported encoding" (set_inflight [] uploading))
     = {| progressContainer_display := "block";
          progressBar_width := "0%";
          progressText_textContent := "Uploading file..." |}
  /\ timers (error_shown "Unsupported encoding" (set_inflight [] uploading)) = []
  /\ currentFilename (error_shown "Unsupported encoding" (set_inflight [] uploading))
     = VNull
  /\ dispatch (env := reference_browser) (Settle 0 (Resolved sample_error_payload))
       processing
     = Some (hide_scheduled
               (error_shown "Unsupported encoding" (set_inflight [] processing))).
Proof.
  repeat match goal with |- _ /\ _ => split end; vm_compute; reflexivity.
Qed.

Lemma process_without_upload_fails_locally_witness :
  dispatch (env := reference_browser) ClickProcess initial_state
  = Some (error_shown "Please upload a file first." initial_state)
  /\ inflight (error_shown "Please upload a file first." initial_state) = [].
Proof.
  destruct (process_without_upload_fails_locally (env := reference_browser)
              initial_state eq_refl) as (H1 & _ & H2 & _).
  split; [exact H1 | exact H2].
Defined.

Lemma download_requires_archive_reference_witness :
  dispatch (env := reference_browser) ClickDownload initial_state
  = Some (error_shown "No file available for download." initial_state)
  /\ dispatch (env := reference_browser) ClickDownload
       (set_currentZipFile (VStr "out_123.zip") initial_state)
     = Some (retrieval_started "out_123.zip"
               (set_currentZipFile (VStr "out_123.zip") initial_state)).
Proof.
  split.
  - apply (download_requires_archive_reference (env := reference_browser)
             initial_state). reflexivity.
  - apply (download_requires_archive_reference (env := reference_browser)
             (set_currentZipFile (VStr "out_123.zip") initial_state)).
    + reflexivity.
    + discriminate.
Defined.

Lemma file_validator_witness :
  handleFile sample_file initial_state = uploadFile sample_file initial_state
  /\ inflight (run_callback (handleFile rejected_file) initial_state) = [].
Proof.
  destruct (file_validator_accepts_recognized_extensions sample_file initial_state)
    as (Haccepted & Hupload & _).
  destruct (file_validator_accepts_recognized_extensions rejected_file initial_state)
    as (Hrejected & _ & Herror).
  split.
  - apply Hupload, Haccepted. reflexivity.
  - apply Herror. intros H. apply Hrejected in H. discriminate H.
Defined.

Lemma process_progress_in_order_witness :
  exists s1 s2 s3 s4 s5,
    dispatch (env := reference_browser) ClickProcess uploaded = Some s1
    /\ progressBar_width (progress s1) = "10%"
    /\ dispatch (env := reference_browser) (Settle 0 (Resolved sample_process_result)) s1
       = Some s2
    /\ progressBar_width (progress s2) = "50%"
    /\ dispatch (env := reference_browser) (Fire 1) s2 = Some s3
    /\ progressBar_width (progress s3) = "80%"
    /\ dispatch (env := reference_browser) (Fire 1) s3 = Some s4
    /\ progressBar_width (progress s4) = "100%"
    /\ outputCount_textContent (download s4) = "4"
    /\ dispatch (env := reference_browser) (Fire 1) s4 = Some s5
    /\ progressContainer_display (progress s5) = "none".
Proof.
  destruct (process_progress_in_order (env := reference_browser) uploaded
              sample_process_result VUndef (VStr "out_123.zip") (VNum 4) "4"
              eq_refl eq_refl eq_refl eq_refl eq_refl eq_refl)
    as (s1 & s2 & s3 & s4 & s5 & H1 & P1 & _ & H2 & P2 & _ & H3 & P3 & _
        & H4 & P4 & _ & C4 & _ & _ & H5 & P5).
  exists s1, s2, s3, s4, s5.
  rewrite P1, P2, P3, P4, P5. repeat split; assumption.
Defined.

Lemma process_success_reveals_download_witness :
  exists st',
    run (env := reference_browser)
      [Settle 0 (Resolved sample_process_result); Fire 1; Fire 1] processing
    = Some st'
    /\ currentZipFile st' = VStr "out_123.zip"
    /\ outputCount_textContent (download st') = "4"
    /\ dispatch (env := reference_browser) ClickDownload st'
       = Some (retrieval_started "out_123.zip" st').
Proof.
  destruct (process_success_reveals_download (env := reference_browser) processing
              [] (VObj [("filename", VStr "data.csv")]) sample_process_result
              VUndef "out_123.zip" 4 eq_refl eq_refl eq_refl eq_refl
              (fun H => match H with end) eq_refl)
    as (st' & H1 & H2 & H3 & _ & _ & _ & _ & H4 & _).
  exists st'. repeat split; assumption.
Defined.

Lemma upload_success_enables_process_witness :
  exists st',
    dispatch (env := reference_browser) (Settle 0 (Resolved sample_upload_result))
      uploading = Some st'
    /\ currentFilename st' = VStr "data.csv"
    /\ processBtn_disabled st' = false
    /\ processBtn_disabled uploading = true
    /\ uploadArea_innerHTML (uploadArea st') = success_markup "data.csv" "120" "5".
Proof.
  destruct (upload_success_enables_process (env := reference_browser) uploading 0
              sample_file sample_upload_result VUndef "data.csv" 120 "120"
              [VStr "a"; VStr "b"; VStr "c"; VStr "d"; VStr "e"]
              eq_refl eq_refl eq_refl eq_refl eq_refl eq_refl eq_refl)
    as (st' & H1 & H2 & _ & _ & H3 & H4 & _).
  exists st'. rewrite H3. repeat split; assumption.
Defined.

Lemma unload_sends_one_cleanup_request_witness :
  exists st',
    dispatch (env := reference_browser) BeforeUnload
      (page_after (DOMContentLoaded :: second_upload_events) initial_state)
    = Some st'
    /\ cleanup_requests st' = 1%nat
    /\ dispatch (env := reference_browser)
         (Settle
            (List.length
               (inflight
                  (page_after (DOMContentLoaded :: second_upload_events)
                     initial_state)))
            (Rejected (HostError "Failed to fetch"))) st'
       = Some (set_trace
                 (trace st'
                  ++ [ConsoleError "Cleanup error:" (HostError "Failed to fetch")])
                 (set_inflight
                    (inflight
                       (page_after (DOMContentLoaded :: second_upload_events)
                          initial_state)) st')).
Proof.
  destruct (unload_sends_one_cleanup_request (env := reference_browser)
              second_upload_events
              (page_after (DOMContentLoaded :: second_upload_events) initial_state)
              (HostError "Failed to fetch")
              ltac:(vm_compute; reflexivity) ltac:(vm_compute; reflexivity))
    as (st' & H1 & _ & H2 & _ & _ & H3 & _).
  exists st'. split; [exact H1|]. split; [exact H2|exact H3].
Defined.

Lemma error_region_stays_visible_witness :
  errorSection_display (errors after_rejection) = "block"
  /\ errorSection_display
       (errors (page_after second_upload_events after_rejection)) = "block"
  /\ currentZipFile (page_after second_upload_events after_rejection)
     = VStr "out_123.zip".
Proof.
  split; [reflexivity|]. split; [|vm_compute; reflexivity].
  apply (error_region_stays_visible (env := reference_browser)
           second_upload_events after_rejection
           (page_after second_upload_events after_rejection)).
  - vm_compute. reflexivity.
  - reflexivity.
Defined.

(** ** Further properties of the script *)

Section FurtherProperties.
Context {env : browser}.

Ltac js_unfold :=
  cbv [handleFile uploadFile upload_then upload_catch upload_settled
       processBtn_click process_then process_catch process_settled
       process_stage80 process_stage100 downloadBtn_click
       beforeunload_listener cleanup_settled DOMContentLoaded_listener
       dragover_listener dragleave_listener drop_listener change_listener
       run_task settled
       showProgress updateProgress hideProgress showError hideError
       call_toLocaleString
       run_callback bind ret throw try_catch lift modify gets emit fetch
       setTimeout on_uploadArea on_fileInfo on_progress on_errors on_download].

Ltac js_branch :=
  match goal with
  | |- context [match get_prop ?a ?b with _ => _ end] => destruct (get_prop a b) eqn:?
  | |- context [match to_text ?a with _ => _ end] => destruct (to_text a) eqn:?
  | |- context [match ToString ?a with _ => _ end] => destruct (ToString a) eqn:?
  | |- context [match toLocaleString ?a with _ => _ end] =>
      destruct (toLocaleString a) eqn:?
  | |- context [if nullish ?a then _ else _] => destruct (nullish a) eqn:?
  | |- context [if truthy ?a then _ else _] => destruct (truthy a) eqn:?
  | |- context [negb (truthy ?a)] => destruct (truthy a) eqn:?
  | |- context [negb (regex_match ?r ?s)] => destruct (regex_match r s) eqn:?
  end.

Ltac js_all_cases := js_unfold; repeat (simpl; js_branch); simpl.

(** Case analysis on the event that is dispatched and on the callback it
    runs. *)
Ltac by_event e H :=
  destruct e as [| |files|files| | | | |i o|i]; cbn [dispatch] in H;
  [ | | destruct files | destruct files | | | | 
  | destruct (nth_error (inflight _) i) as [[f|body|]|] eqn:?; [destruct o|destruct o|destruct o|]
  | destruct (nth_error (timers _) i) as [[d [|data|data|]]|] eqn:? ];
  try discriminate H; try (injection H as <-).

(** *** What writes the session *)

(** X1: the file name of the session is written by one callback only, the
    one of an upload response; every other event (a rejected upload, a
    process response, a timer, a click, a drag, the page life cycle) leaves
    it as it is. *)
Theorem file_name_written_only_by_upload_response
    (e : event) (st st' : state) :
  settles_upload e st = false ->
  dispatch e st = Some st' ->
  currentFilename st' = currentFilename st.
Proof.
  intros Hs H. by_event e H.
  all: try (cbn [settles_upload] in Hs;
            match goal with E : nth_error _ _ = _ |- _ => rewrite E in Hs end;
            discriminate Hs).
  all: try rewrite beforeunload_listeners_run.
  all: js_all_cases; reflexivity.
Qed.

(** X2: the archive reference of the session is written by one callback
    only, the last stage of a process (the timer set at 80%); every other
    event, a new upload included, leaves it as it is. *)
Theorem archive_reference_written_only_by_last_stage
    (e : event) (st st' : state) :
  fires_stage100 e st = false ->
  dispatch e st = Some st' ->
  currentZipFile st' = currentZipFile st.
Proof.
  intros Hs H. by_event e H.
  all: try (cbn [fires_stage100] in Hs;
            match goal with E : nth_error _ _ = _ |- _ => rewrite E in Hs end;
            discriminate Hs).
  all: try rewrite beforeunload_listeners_run.
  all: js_all_cases; reflexivity.
Qed.

Lemma never_undone_refl st : never_undone st st.
Proof. repeat split; auto. Qed.

Lemma never_undone_trans a b c :
  never_undone a b -> never_undone b c -> never_undone a c.
Proof. intros (H1 & H2 & H3) (H4 & H5 & H6). repeat split; auto. Qed.

Lemma dispatch_never_undoes e st st' :
  dispatch e st = Some st' -> never_undone st st'.
Proof.
  intros H. by_event e H.
  all: try rewrite beforeunload_listeners_run.
  all: js_all_cases; repeat split; auto.
Qed.

Lemma filter_app_nil {A : Type} (p : A -> bool) (l more : list A) :
  filter p more = [] -> filter p (l ++ more) = filter p l.
Proof. intros H. now rewrite filter_app, H, app_nil_r. Qed.

Lemma filter_repeat_none {A : Type} (p : A -> bool) (x : A) (n : nat) :
  p x = false -> filter p (repeat x n) = [].
Proof. intros H. induction n; simpl; [reflexivity|]. now rewrite H. Qed.

Lemma dispatch_sends_validated_requests e st st' :
  dispatch e st = Some st' ->
  filter unvalidated_request (trace st') = filter unvalidated_request (trace st).
Proof.
  intros H. by_event e H.
  all: try rewrite beforeunload_listeners_run.
  all: js_all_cases; try reflexivity.
  all: repeat (rewrite filter_app_nil; [|simpl]); try reflexivity.
  all: try match goal with E : _ = true |- _ => now rewrite E end.
  now apply filter_repeat_none.
Qed.

Lemma run_never_undoes events : forall st st',
  run events st = Some st' -> never_undone st st'.
Proof.
  induction events as [|e events IH]; intros st st' H; simpl in H.
  - injection H as <-. apply never_undone_refl.
  - destruct (dispatch e st) as [st1|] eqn:D; [|discriminate].
    eapply never_undone_trans; [eapply dispatch_never_undoes; eassumption|].
    now apply IH.
Qed.

Lemma run_sends_validated_requests events : forall st st',
  run events st = Some st' ->
  filter unvalidated_request (trace st') = filter unvalidated_request (trace st).
Proof.
  induction events as [|e events IH]; intros st st' H; simpl in H.
  - now injection H as <-.
  - destruct (dispatch e st) as [st1|] eqn:D; [|discriminate].
    rewrite (IH _ _ H). eapply dispatch_sends_validated_requests; eassumption.
Qed.

(** *** What is never taken back, what is never sent *)

(** X3: nothing is ever taken back.  Over any sequence of events a process
    button that is enabled stays enabled, and a file-information or download
    region that is displayed stays displayed, whatever fails later. *)
Theorem enabled_button_and_shown_regions_stay
    (events : list event) (st st' : state) :
  run events st = Some st' ->
  (processBtn_disabled st = false -> processBtn_disabled st' = false)
  /\ (fileInfo_display (fileInfo st) = "block" ->
      fileInfo_display (fileInfo st') = "block")
  /\ (downloadSection_display (download st) = "block" ->
      downloadSection_display (download st') = "block").
Proof. apply run_never_undoes. Qed.

(** X4: over any sequence of events, every upload request that is sent
    carries a file whose name has a recognized extension, and every process
    request carries a file name that passes the handler's test. *)
Theorem only_validated_requests_are_sent
    (events : list event) (st st' : state) :
  run events st = Some st' ->
  (forall f, In (Fetch (UploadReq f)) (trace st') ->
     In (Fetch (UploadReq f)) (trace st) \/ recognized_extension (name f))
  /\ (forall body, In (Fetch (ProcessReq body)) (trace st') ->
        In (Fetch (ProcessReq body)) (trace st)
        \/ exists v, get_prop body "filename" = Ok v /\ truthy v = true).
Proof.
  intros H. apply run_sends_validated_requests in H.
  assert (K : forall e, In e (trace st') ->
                unvalidated_request e = true -> In e (trace st)).
  { intros e He Hb.
    assert (Hf : In e (filter unvalidated_request (trace st')))
      by (apply filter_In; auto).
    rewrite H in Hf. now apply filter_In in Hf. }
  split.
  - intros f Hin.
    destruct (regex_match extension_pattern (name f)) eqn:E.
    + right. now apply extension_pattern_spec.
    + left. apply K; [exact Hin|]. simpl. now rewrite E.
  - intros body Hin.
    destruct (get_prop body "filename") as [v|err] eqn:E.
    + destruct (truthy v) eqn:T.
      * right. eauto.
      * left. apply K; [exact Hin|]. simpl. now rewrite E, T.
    + left. apply K; [exact Hin|]. simpl. now rewrite E.
Qed.

(** *** How the operations compose *)

(** X5: a timer of [hideProgress] is not tied to the operation that set it.
    With such a timer pending, a click on the process button shows the
    progress region at 10% and the timer then hides it, while the process
    request is still pending. *)
Theorem pending_hide_timer_hides_later_progress
    (st : state) (i : nat) (d : Z) :
  nth_error (timers st) i = Some (d, HideProgressNow) ->
  truthy (currentFilename st) = true ->
  exists st',
    run [ClickProcess; Fire i] st = Some st'
    /\ progress st'
       = {| progressContainer_display := "none";
            progressBar_width := "10%";
            progressText_textContent := "Processing file... This may take a moment..." |}
    /\ inflight st'
       = (inflight st ++ [ProcessReq (VObj [("filename", currentFilename st)])])%list
    /\ timers st' = remove_at i (timers st).
Proof.
  intros Ht Hn. eexists. split.
  - cbn [run dispatch]. rewrite (processBtn_click_sends _ Hn).
    cbn [timers set_inflight set_trace set_progress]. rewrite Ht. reflexivity.
  - repeat split.
Qed.

Lemma repeat_snoc {A : Type} (x : A) (n : nat) :
  (repeat x n ++ [x])%list = x :: repeat x n.
Proof. induction n; simpl; [reflexivity|]. now rewrite IHn. Qed.

(** X6: a download does not use up the archive reference.  With a reference
    in the session, [n] clicks on the download button retrieve the same
    archive [n] times, each leaving a timer of 2000 ms that removes the
    pulse, and the session is as before. *)
Theorem download_can_be_repeated (n : nat) (ref : string) : forall st : state,
  currentZipFile st = VStr ref ->
  ref <> EmptyString ->
  exists st',
    run (repeat ClickDownload n) st = Some st'
    /\ trace st'
       = (trace st ++ repeat (AnchorClick ("/download/" ++ ref) ref) n)%list
    /\ timers st' = (timers st ++ repeat (2000, RemovePulse) n)%list
    /\ currentZipFile st' = VStr ref
    /\ currentFilename st' = currentFilename st.
Proof.
  induction n as [|n IH]; intros st E Hne.
  - exists st. simpl. rewrite !app_nil_r. repeat split; auto.
  - destruct (IH (retrieval_started ref st) E Hne) as (st' & Hr & Ht & Hm & Hz & Hf).
    exists st'. split; [|split; [|split; [|split]]].
    + cbn [repeat run]. now rewrite (downloadBtn_click_retrieves ref st E Hne).
    + rewrite Ht. simpl. now rewrite <- app_assoc.
    + rewrite Hm. simpl. now rewrite <- app_assoc.
    + exact Hz.
    + exact Hf.
Qed.

(** X7: the process button is not guarded against a request that is still
    pending.  With a file name in the session, [n] clicks send [n] process
    requests for that file name, all pending together. *)
Theorem process_clicks_are_not_single_flight (n : nat) : forall st : state,
  truthy (currentFilename st) = true ->
  exists st',
    run (repeat ClickProcess n) st = Some st'
    /\ inflight st'
       = (inflight st
          ++ repeat (ProcessReq (VObj [("filename", currentFilename st)])) n)%list
    /\ trace st'
       = (trace st
          ++ repeat (Fetch (ProcessReq (VObj [("filename", currentFilename st)]))) n)%list
    /\ currentFilename st' = currentFilename st.
Proof.
  induction n as [|n IH]; intros st Hn.
  - exists st. simpl. rewrite !app_nil_r. repeat split.
  - pose proof (processBtn_click_sends st Hn) as Hc.
    destruct (IH (run_callback processBtn_click st)) as (st' & Hr & Hi & Ht & Hf).
    { now rewrite Hc. }
    exists st'. split; [|split; [|split]].
    + cbn [repeat run dispatch]. exact Hr.
    + rewrite Hi, Hc. simpl. now rewrite <- app_assoc.
    + rewrite Ht, Hc. simpl. now rewrite <- app_assoc.
    + rewrite Hf, Hc. reflexivity.
Qed.

(** X8: each [beforeunload] event sends one cleanup request per registered
    listener and the listener stays registered: [k] such events send [k]
    times as many requests as there are listeners, none at all before
    [DOMContentLoaded] has registered one.  Nothing is shown to the user. *)
Theorem beforeunload_sends_one_request_per_listener (k : nat) : forall st : state,
  exists st',
    run (repeat BeforeUnload k) st = Some st'
    /\ cleanup_requests st' = (cleanup_requests st + k * unloadListeners st)%nat
    /\ unloadListeners st' = unloadListeners st
    /\ errors st' = errors st.
Proof.
  induction k as [|k IH]; intros st.
  - exists st. simpl. repeat split. lia.
  - destruct (IH (Nat.iter (unloadListeners st)
                    (run_callback beforeunload_listener) st))
      as (st' & Hr & Hc & Hl & He).
    exists st'. rewrite beforeunload_listeners_run in Hc, Hl, He.
    split; [exact Hr|]. split; [|split; [exact Hl | exact He]].
    rewrite Hc. unfold cleanup_requests. simpl.
    rewrite filter_app, length_app.
    assert (L : forall m, List.length (filter is_cleanup_fetch
                             (repeat (Fetch CleanupReq) m)) = m).
    { induction m; simpl; auto. }
    rewrite L. lia.
Qed.

(** *** Responses that lack what the script reads *)

(** X9: an upload response without error payload and without row count is
    applied halfway.  The file name is stored in the session and shown in
    the file-information region, then reading the row count throws: the
    error is reported as an upload failure and the progress region is
    hidden, while the process button and the upload area are as before. *)
Theorem upload_response_without_row_count_is_half_applied
    (st : state) (i : nat) (f : file) (data err rc : value) (fname : string) :
  nth_error (inflight st) i = Some (UploadReq f) ->
  get_prop data "error" = Ok err ->
  truthy err = false ->
  get_prop data "filename" = Ok (VStr fname) ->
  get_prop data "row_count" = Ok rc ->
  nullish rc = true ->
  exists st',
    dispatch (Settle i (Resolved data)) st = Some st'
    /\ currentFilename st' = VStr fname
    /\ fileInfo st'
       = {| fileInfo_display := "block";
            fileName_textContent := fname;
            fileRows_textContent := fileRows_textContent (fileInfo st);
            fileColumns_textContent := fileColumns_textContent (fileInfo st) |}
    /\ processBtn_disabled st' = processBtn_disabled st
    /\ uploadArea st' = uploadArea st
    /\ errors st'
       = {| errorSection_display := "block";
            errorMessage_textContent :=
              "Error uploading file: "
              ++ typeErrorMessage (ReadOfNullish rc "toLocaleString") |}
    /\ timers st' = (timers st ++ [(1000, HideProgressNow)])%list.
Proof.
  intros Hreq Herr Hfalsy Hname Hrows Hnull.
  eexists. split.
  - cbn [dispatch]. rewrite Hreq. js_unfold.
    repeat (progress rewrite ?Herr, ?Hfalsy, ?Hname, ?Hrows, ?Hnull; simpl).
    reflexivity.
  - repeat split.
Qed.

(** X10: an upload response without error payload and without file name
    counts as a success.  The session's file name becomes [undefined], the
    success markup names the file "undefined" and the process button is
    enabled; a click on it then reports that no file was uploaded. *)
Theorem upload_response_without_file_name_enables_process
    (st : state) (i : nat) (f : file) (data err : value)
    (rows : Z) (rows_text : string) (cols : list value) :
  nth_error (inflight st) i = Some (UploadReq f) ->
  get_prop data "error" = Ok err ->
  truthy err = false ->
  get_prop data "filename" = Ok VUndef ->
  get_prop data "row_count" = Ok (VNum rows) ->
  toLocaleString (VNum rows) = Ok rows_text ->
  get_prop data "columns" = Ok (VArr cols) ->
  exists st',
    dispatch (Settle i (Resolved data)) st = Some st'
    /\ currentFilename st' = VUndef
    /\ processBtn_disabled st' = false
    /\ fileName_textContent (fileInfo st') = EmptyString
    /\ uploadArea_innerHTML (uploadArea st')
       = success_markup "undefined" rows_text
           (number_to_string (Z.of_nat (List.length cols)))
    /\ dispatch ClickProcess st'
       = Some (error_shown "Please upload a file first." st').
Proof.
  intros Hreq Herr Hfalsy Hname Hrows Hlocale Hcols.
  eexists. split.
  - cbn [dispatch]. rewrite Hreq. js_unfold.
    repeat (progress rewrite ?Herr, ?Hfalsy, ?Hname, ?Hrows, ?Hlocale, ?Hcols;
            simpl).
    reflexivity.
  - repeat split.
Qed.

(** X11: a response whose body is the JSON value [null] is a failure of
    the operation.  Reading its [error] field throws, the [catch] callback
    reports the engine's message after the script's prefix and hides the
    progress region, and the session is as before. *)
Theorem null_response_body_is_a_failure (data : value) (st : state) :
  nullish data = true ->
  run_callback (upload_settled (Resolved data)) st
  = hide_scheduled
      (error_shown
         ("Error uploading file: " ++ typeErrorMessage (ReadOfNullish data "error"))
         st)
  /\ run_callback (process_settled (Resolved data)) st
     = hide_scheduled
         (error_shown
            ("Error processing file: "
             ++ typeErrorMessage (ReadOfNullish data "error"))
            st)
  /\ currentFilename (run_callback (upload_settled (Resolved data)) st)
     = currentFilename st
  /\ currentZipFile (run_callback (process_settled (Resolved data)) st)
     = currentZipFile st.
Proof.
  intros H. destruct data; try discriminate H; repeat split.
Qed.

(** *** Drag and drop *)

(** X12: leaving the upload area, or dropping nothing on it, puts back the
    default colours whatever the colours were, the green of a successful
    upload included; the markup of the area, the session and the pending
    requests and timers are as before. *)
Theorem drag_restores_default_colours (st : state) :
  exists st1 st2,
    run [DragOver; DragLeave] st = Some st1
    /\ dispatch (Drop []) st = Some st2
    /\ uploadArea st1
       = {| uploadArea_borderColor := "#667eea";
            uploadArea_background := "white";
            uploadArea_innerHTML := uploadArea_innerHTML (uploadArea st) |}
    /\ uploadArea st2 = uploadArea st1
    /\ trace st1 = (trace st ++ [PreventDefault; PreventDefault])%list
    /\ trace st2 = (trace st ++ [PreventDefault])%list
    /\ (currentFilename st1, currentZipFile st1, inflight st1, timers st1)
       = (currentFilename st, currentZipFile st, inflight st, timers st)
    /\ (currentFilename st2, currentZipFile st2, inflight st2, timers st2)
       = (currentFilename st, currentZipFile st, inflight st, timers st).
Proof.
  exists (run_callback dragleave_listener (run_callback dragover_listener st)),
         (run_callback (drop_listener []) st).
  split; [reflexivity|]. split; [reflexivity|].
  split; [reflexivity|]. split; [reflexivity|].
  split; [simpl; now rewrite <- app_assoc|].
  repeat split.
Qed.

(** *** The file-name pattern *)

Lemma canonicalize_idempotent (c : ascii) :
  canonicalize (canonicalize c) = canonicalize c.
Proof.
  destruct c as [[] [] [] [] [] [] [] []]; reflexivity.
Qed.

Lemma matchK_to_upper r : forall s k k',
  (forall rest, k' (to_upper rest) = k rest) ->
  matchK r (to_upper s) k' = matchK r s k.
Proof.
  induction r as [|c|r1 IH1 r2 IH2|r1 IH1 r2 IH2|]; intros s k k' Hk; simpl.
  - apply Hk.
  - destruct s as [|a s]; simpl; [reflexivity|].
    rewrite canonicalize_idempotent. now rewrite Hk.
  - apply IH1. intros rest. now apply IH2.
  - now rewrite (IH1 s k k'), (IH2 s k k').
  - destruct s; simpl; [apply (Hk EmptyString) | reflexivity].
Qed.

Lemma regex_match_to_upper r s :
  regex_match r (to_upper s) = regex_match r s.
Proof.
  induction s as [|a s IH].
  - reflexivity.
  - change (to_upper (String a s)) with (String (canonicalize a) (to_upper s)).
    cbn [regex_match]. rewrite IH. f_equal.
    now apply (matchK_to_upper r (String a s)).
Qed.

Lemma regex_match_after_prefix r front : forall s,
  regex_match r s = true -> regex_match r (front ++ s) = true.
Proof.
  induction front as [|a front IH]; intros s H; simpl; [exact H|].
  rewrite (IH _ H). apply orb_true_r.
Qed.

(** X13: the validation looks at the end of the name only and ignores the
    case of its letters: a name and its upper-case form are accepted or
    rejected together, and an accepted name stays accepted with any text
    put in front of it. *)
Theorem validation_ignores_case_and_prefix (f : file) (front : string) (st : state) :
  regex_match extension_pattern (to_upper (name f))
  = regex_match extension_pattern (name f)
  /\ (regex_match extension_pattern (name f) = true ->
      handleFile {| name := front ++ name f; content := content f |} st
      = uploadFile {| name := front ++ name f; content := content f |} st).
Proof.
  split; [apply regex_match_to_upper|].
  intros H. unfold handleFile. cbn [name].
  now rewrite (regex_match_after_prefix _ front _ H).
Qed.

Lemma downloadBtn_click_without_reference (st : state) :
  truthy (currentZipFile st) = false ->
  dispatch ClickDownload st
  = Some (error_shown "No file available for download." st).
Proof.
  intros H. cbn [dispatch]. unfold downloadBtn_click, run_callback, bind, gets.
  now rewrite H.
Qed.

(** X14: a process response without error payload and without archive
    reference still runs the three stages.  The session's archive reference
    becomes [undefined], whatever it was, and the download region is
    displayed; a click on the download button then reports that no file is
    available. *)
Theorem process_response_without_archive_blocks_download
    (st : state) (pending : list request) (body data err files_created : value)
    (text : string) :
  inflight st = (pending ++ [ProcessReq body])%list ->
  get_prop data "error" = Ok err ->
  truthy err = false ->
  get_prop data "zip_file" = Ok VUndef ->
  get_prop data "files_created" = Ok files_created ->
  ToString files_created = Ok text ->
  exists st',
    run [Settle (List.length pending) (Resolved data);
         Fire (List.length (timers st)); Fire (List.length (timers st))] st
    = Some st'
    /\ currentZipFile st' = VUndef
    /\ downloadSection_display (download st') = "block"
    /\ progressBar_width (progress st') = "100%"
    /\ dispatch ClickDownload st'
       = Some (error_shown "No file available for download." st').
Proof.
  intros Hreq Herr Hfalsy Hzip Hcount Htext.
  pose proof (to_text_of_ToString _ _ Htext) as Hshown.
  eexists. split.
  { cbn [run]. erewrite dispatch_settle_last by eassumption. cbn [settled].
    erewrite process_then_success by eassumption.
    erewrite dispatch_fire_last by reflexivity.
    rewrite process_stage80_runs.
    erewrite dispatch_fire_last by reflexivity.
    erewrite process_stage100_runs by eassumption.
    reflexivity. }
  split; [reflexivity|]. split; [reflexivity|]. split; [reflexivity|].
  now apply downloadBtn_click_without_reference.
Qed.

End FurtherProperties.

(** ** The further properties on the example pages *)

Lemma file_name_written_only_by_upload_response_witness :
  dispatch (env := reference_browser) (Settle 0 (Resolved sample_process_result))
    processing
  = Some (page_after [Settle 0 (Resolved sample_process_result)] processing)
  /\ currentFilename (page_after [Settle 0 (Resolved sample_process_result)] processing)
     = VStr "data.csv".
Proof.
  split; [vm_compute; reflexivity|].
  apply (file_name_written_only_by_upload_response (env := reference_browser)
           (Settle 0 (Resolved sample_process_result)) processing
           (page_after [Settle 0 (Resolved sample_process_result)] processing));
    vm_compute; reflexivity.
Defined.

Lemma archive_reference_written_only_by_last_stage_witness :
  dispatch (env := reference_browser) (Settle 0 (Resolved second_upload_result))
    second_uploading
  = Some (page_after [Settle 0 (Resolved second_upload_result)] second_uploading)
  /\ currentZipFile
       (page_after [Settle 0 (Resolved second_upload_result)] second_uploading)
     = currentZipFile second_uploading.
Proof.
  split; [vm_compute; reflexivity|].
  apply (archive_reference_written_only_by_last_stage (env := reference_browser)
           (Settle 0 (Resolved second_upload_result)) second_uploading);
    vm_compute; reflexivity.
Defined.

Lemma enabled_button_and_shown_regions_stay_witness :
  processBtn_disabled uploaded = false
  /\ processBtn_disabled (page_after failed_second_upload_events uploaded) = false
  /\ errorMessage_textContent
       (errors (page_after failed_second_upload_events uploaded))
     = "Unsupported encoding".
Proof.
  split; [reflexivity|]. split; [|vm_compute; reflexivity].
  apply (enabled_button_and_shown_regions_stay (env := reference_browser)
           failed_second_upload_events uploaded
           (page_after failed_second_upload_events uploaded)).
  - vm_compute. reflexivity.
  - reflexivity.
Defined.

Lemma only_validated_requests_are_sent_witness :
  In (Fetch (UploadReq sample_file))
    (trace (page_after rejected_then_accepted_events initial_state))
  /\ recognized_extension (name sample_file).
Proof.
  assert (Hin : In (Fetch (UploadReq sample_file))
                  (trace (page_after rejected_then_accepted_events initial_state))).
  { vm_compute. auto. }
  split; [exact Hin|].
  destruct (only_validated_requests_are_sent (env := reference_browser)
              rejected_then_accepted_events initial_state
              (page_after rejected_then_accepted_events initial_state)
              ltac:(vm_compute; reflexivity)) as [Hupload _].
  destruct (Hupload sample_file Hin) as [Hbefore|Hok].
  - destruct Hbefore.
  - exact Hok.
Defined.

Lemma pending_hide_timer_hides_later_progress_witness :
  exists st',
    run (env := reference_browser) [ClickProcess; Fire 0] uploaded = Some st'
    /\ progressContainer_display (progress st') = "none"
    /\ inflight st' = [ProcessReq (VObj [("filename", VStr "data.csv")])].
Proof.
  destruct (pending_hide_timer_hides_later_progress (env := reference_browser)
              uploaded 0 1000 eq_refl eq_refl) as (st' & H1 & H2 & H3 & _).
  exists st'. rewrite H2. repeat split; assumption.
Defined.

Lemma download_can_be_repeated_witness :
  exists st',
    run (env := reference_browser) [ClickDownload; ClickDownload; ClickDownload]
      (set_currentZipFile (VStr "out_123.zip") initial_state) = Some st'
    /\ trace st'
       = [AnchorClick "/download/out_123.zip" "out_123.zip";
          AnchorClick "/download/out_123.zip" "out_123.zip";
          AnchorClick "/download/out_123.zip" "out_123.zip"]
    /\ currentZipFile st' = VStr "out_123.zip".
Proof.
  destruct (download_can_be_repeated (env := reference_browser) 3 "out_123.zip"
              (set_currentZipFile (VStr "out_123.zip") initial_state)
              eq_refl (fun H => match H with end))
    as (st' & H1 & H2 & _ & H3 & _).
  exists st'. repeat split; assumption.
Defined.

Lemma process_clicks_are_not_single_flight_witness :
  exists st',
    run (env := reference_browser) [ClickProcess; ClickProcess] uploaded = Some st'
    /\ inflight st'
       = [ProcessReq (VObj [("filename", VStr "data.csv")]);
          ProcessReq (VObj [("filename", VStr "data.csv")])].
Proof.
  destruct (process_clicks_are_not_single_flight (env := reference_browser) 2
              uploaded eq_refl) as (st' & H1 & H2 & _).
  exists st'. split; assumption.
Defined.

Lemma upload_response_without_row_count_is_half_applied_witness :
  exists st',
    dispatch (env := reference_browser)
      (Settle 0 (Resolved upload_result_without_rows)) uploading = Some st'
    /\ currentFilename st' = VStr "data.csv"
    /\ processBtn_disabled st' = true
    /\ errorMessage_textContent (errors st')
       = "Error uploading file: Cannot read properties of undefined (reading 'toLocaleString')".
Proof.
  destruct (upload_response_without_row_count_is_half_applied
              (env := reference_browser) uploading 0 sample_file
              upload_result_without_rows VUndef VUndef "data.csv"
              eq_refl eq_refl eq_refl eq_refl eq_refl eq_refl)
    as (st' & H1 & H2 & _ & H3 & _ & H4 & _).
  exists st'. rewrite H4. repeat split; assumption.
Defined.

Lemma upload_response_without_file_name_enables_process_witness :
  exists st',
    dispatch (env := reference_browser)
      (Settle 0 (Resolved upload_result_without_name)) uploading = Some st'
    /\ currentFilename st' = VUndef
    /\ processBtn_disabled st' = false
    /\ dispatch (env := reference_browser) ClickProcess st'
       = Some (error_shown "Please upload a file first." st').
Proof.
  destruct (upload_response_without_file_name_enables_process
              (env := reference_browser) uploading 0 sample_file
              upload_result_without_name VUndef 120 "120"
              [VStr "a"; VStr "b"; VStr "c"; VStr "d"; VStr "e"]
              eq_refl eq_refl eq_refl eq_refl eq_refl eq_refl eq_refl)
    as (st' & H1 & H2 & H3 & _ & _ & H4).
  exists st'. repeat split; assumption.
Defined.

Lemma null_response_body_is_a_failure_witness :
  errorMessage_textContent
    (errors (run_callback (upload_settled (env := reference_browser) (Resolved VNull))
               uploading))
  = "Error uploading file: Cannot read properties of null (reading 'error')"
  /\ currentFilename
       (run_callback (upload_settled (env := reference_browser) (Resolved VNull))
          uploading)
     = VNull.
Proof.
  destruct (null_response_body_is_a_failure (env := reference_browser) VNull
              uploading eq_refl) as (H1 & _ & H2 & _).
  split; [rewrite H1; reflexivity | exact H2].
Defined.

Lemma validation_ignores_case_and_prefix_witness :
  regex_match extension_pattern "DATA.CSV" = true
  /\ handleFile {| name := "archive.exe/data.csv"; content := "a,b,c,d,e" |}
       initial_state
     = uploadFile {| name := "archive.exe/data.csv"; content := "a,b,c,d,e" |}
         initial_state.
Proof.
  destruct (validation_ignores_case_and_prefix sample_file "archive.exe/"
              initial_state) as (H1 & H2).
  split.
  - exact (eq_trans H1 eq_refl).
  - exact (H2 eq_refl).
Defined.

Lemma process_response_without_archive_blocks_download_witness :
  exists st',
    run (env := reference_browser)
      [Settle 0 (Resolved process_result_without_archive); Fire 1; Fire 1]
      processing = Some st'
    /\ currentZipFile st' = VUndef
    /\ downloadSection_display (download st') = "block"
    /\ dispatch (env := reference_browser) ClickDownload st'
       = Some (error_shown "No file available for download." st').
Proof.
  destruct (process_response_without_archive_blocks_download
              (env := reference_browser) processing []
              (VObj [("filename", VStr "data.csv")])
              process_result_without_archive VUndef (VNum 4) "4"
              eq_refl eq_refl eq_refl eq_refl eq_refl eq_refl)
    as (st' & H1 & H2 & H3 & _ & H4).
  exists st'. repeat split; assumption.
Defined.
